(** * analysis-app: the depth-map and embedding command-line tools

    A shallow embedding of [server/services/midas_depth.py] and
    [server/services/openclip_embeddings.py].

    The scripts are glue around pretrained networks.  The glue (argument
    dispatch, path handling, normalisation to 8 bits, the batch loop, the
    exception guards, exit codes) is modelled as written; the third-party
    primitives (image decoding, the network forward passes, resizing, MD5,
    the Mersenne-Twister sampler, base64) are operations of a library
    interface the definitions are parameterised by.

    Numbers: the depth values the network returns are read as rationals,
    so that lines 84-93 compute; the feature values of the embedding are
    of an arbitrary type carrying a division and a norm, and are read
    as real numbers where the unit norm is stated.  Exceptions are the
    instances of [Exception]; what [except Exception] does not catch
    ([KeyboardInterrupt], [SystemExit]) is outside the model.

    Files: the file system is a finite map from path texts to nodes,
    without links; [os.makedirs] creates the missing directories on the
    way, a name too long for the operating system is refused, and a set
    of paths the process may not write stands for permissions.  [Path]
    objects are the texts [pathlib] prints for them.  Both scripts are
    modelled from their first line, imports included, so that an
    exception nothing catches is a result of a run like any other. *)

From Stdlib Require Import ZArith QArith Reals Lra Lia.
From Stdlib Require Import List String Ascii Bool.
From stdpp Require Import gmap strings list.

Close Scope Q_scope.
Close Scope R_scope.
Local Open Scope string_scope.

(* ===================================================================== *)
(** * The Python runtime the scripts rely on *)
(* ===================================================================== *)

Module Py.

(** An instance of [Exception]: its class name and [str(e)]. *)
Inductive exn := Exn (kind : string) (msg : string).

Definition exn_str (e : exn) : string := let 'Exn _ m := e in m.
Definition exn_kind (e : exn) : string := let 'Exn k _ := e in k.

(** Completion of a statement block: a value, or an exception in flight. *)
Inductive outcome (A : Type) : Type :=
| Ret (a : A)
| Raise (e : exn).
Arguments Ret {A} a.
Arguments Raise {A} e.

(** Code that reads and writes a state of type [S] and may raise.  The
    state a block leaves behind survives the exception it raises. *)
Definition M (S A : Type) : Type := S -> outcome A * S.

Definition ret {S A} (a : A) : M S A := fun s => (Ret a, s).
Definition raise {S A} (e : exn) : M S A := fun s => (Raise e, s).
Definition bind {S A B} (m : M S A) (k : A -> M S B) : M S B :=
  fun s => match m s with
           | (Ret a, s') => k a s'
           | (Raise e, s') => (Raise e, s')
           end.
(** A call that cannot touch the state. *)
Definition call {S A} (o : outcome A) : M S A := fun s => (o, s).
(** The status a process ends with: the one it exits with, or 1 when an
    exception reaches the top level (the traceback goes to standard
    error). *)
Definition exit_status (o : outcome Z) : Z :=
  match o with
  | Ret status => status
  | Raise _ => 1%Z
  end.

Definition get {S} : M S S := fun s => (Ret s, s).
Definition put {S} (s : S) : M S unit := fun _ => (Ret tt, s).

(** [try: body except Exception as e: handler(e)] *)
Definition try_except {S A} (body : M S A) (handler : exn -> M S A) : M S A :=
  fun s => match body s with
           | (Ret a, s') => (Ret a, s')
           | (Raise e, s') => handler e s'
           end.

(** [for x in xs: acc.append(f(x))] *)
Fixpoint for_append {S A B} (f : A -> M S B) (xs : list A) : M S (list B) :=
  match xs with
  | [] => ret []
  | x :: xs' => bind (f x) (fun y => bind (for_append f xs') (fun ys => ret (y :: ys)))
  end.

(** ** [str] methods *)

(** [s.startswith(p)] *)
Fixpoint startswith (s p : string) : bool :=
  match p, s with
  | EmptyString, _ => true
  | String c p', String d s' => if Ascii.eqb c d then startswith s' p' else false
  | String _ _, EmptyString => false
  end.

(** [s] starts with [p], as a proposition. *)
Definition has_prefix (p s : string) : Prop := exists rest, s = p ++ rest.

(** [s.split(sep, 1)] for a one-character separator: one element when
    [sep] does not occur, else the text before and after its first
    occurrence. *)
Fixpoint split1 (sep : ascii) (s : string) : list string :=
  match s with
  | EmptyString => [EmptyString]
  | String c s' =>
      if Ascii.eqb c sep then [EmptyString; s']
      else match split1 sep s' with
           | [h] => [String c h]
           | h :: rest => String c h :: rest
           | [] => []
           end
  end.

(** [a, b = xs] *)
Definition unpack2 (xs : list string) : outcome (string * string) :=
  match xs with
  | [a; b] => Ret (a, b)
  | [] => Raise (Exn "ValueError" "not enough values to unpack (expected 2, got 0)")
  | [_] => Raise (Exn "ValueError" "not enough values to unpack (expected 2, got 1)")
  | _ => Raise (Exn "ValueError" "too many values to unpack (expected 2)")
  end.

(** [s.lower()] on ASCII text. *)
Definition lower_ascii (c : ascii) : ascii :=
  let n := nat_of_ascii c in
  if (65 <=? n)%nat && (n <=? 90)%nat then ascii_of_nat (n + 32) else c.

Fixpoint lower (s : string) : string :=
  match s with
  | EmptyString => EmptyString
  | String c s' => String (lower_ascii c) (lower s')
  end.

(** [s.rfind(c)]: the last index of [c], [None] for Python's [-1]. *)
Fixpoint rfind (c : ascii) (s : string) : option nat :=
  match s with
  | EmptyString => None
  | String d s' =>
      match rfind c s' with
      | Some i => Some (S i)
      | None => if Ascii.eqb d c then Some 0%nat else None
      end
  end.

(** [s[:n]] and [s[n:]] *)
Fixpoint take (n : nat) (s : string) : string :=
  match n, s with
  | S n', String c s' => String c (take n' s')
  | _, _ => EmptyString
  end.

Fixpoint drop (n : nat) (s : string) : string :=
  match n, s with
  | S n', String _ s' => drop n' s'
  | _, _ => s
  end.

(** [s.rstrip('/')] *)
Fixpoint rstrip (c : ascii) (s : string) : string :=
  match s with
  | EmptyString => EmptyString
  | String d s' =>
      match rstrip c s' with
      | EmptyString => if Ascii.eqb d c then EmptyString else String d EmptyString
      | r => String d r
      end
  end.

(** [int(s, 16)] on a string of hexadecimal digits; anything else, the
    empty string included, is a [ValueError]. *)
Definition hex_digit (c : ascii) : option Z :=
  let n := nat_of_ascii c in
  if (48 <=? n)%nat && (n <=? 57)%nat then Some (Z.of_nat (n - 48))
  else if (97 <=? n)%nat && (n <=? 102)%nat then Some (Z.of_nat (n - 87))
  else if (65 <=? n)%nat && (n <=? 70)%nat then Some (Z.of_nat (n - 55))
  else None.

Fixpoint int16_acc (acc : Z) (s : string) : option Z :=
  match s with
  | EmptyString => Some acc
  | String c s' =>
      match hex_digit c with
      | Some d => int16_acc (16 * acc + d)%Z s'
      | None => None
      end
  end.

(** A digest as [hexdigest()] prints it: 32 hexadecimal digits. *)
Definition is_hexdigest (s : string) : bool :=
  Nat.eqb (String.length s) 32
  && forallb (fun c => match hex_digit c with Some _ => true | None => false end)
             (list_ascii_of_string s).

Definition int16 (s : string) : outcome Z :=
  match s with
  | EmptyString => Raise (Exn "ValueError" "invalid literal for int() with base 16: ''")
  | _ => match int16_acc 0%Z s with
         | Some n => Ret n
         | None => Raise (Exn "ValueError"
                              ("invalid literal for int() with base 16: '" ++ s ++ "'"))
         end
  end.

End Py.

(* ===================================================================== *)
(** * [os.path] and [pathlib] on POSIX *)
(* ===================================================================== *)

Module PosixPath.
Import Py.

Definition slash : ascii := "/"%char.
Definition dot : ascii := "."%char.

Fixpoint all_slashes (s : string) : bool :=
  match s with
  | EmptyString => true
  | String c s' => Ascii.eqb c slash && all_slashes s'
  end.

(** [os.path.dirname(p)]:
    [i = p.rfind('/') + 1; head = p[:i];
     if head and head != '/'*len(head): head = head.rstrip('/')]. *)
Definition dirname (p : string) : string :=
  let i := match rfind slash p with Some j => S j | None => 0%nat end in
  let head := take i p in
  if negb (String.eqb head "") && negb (all_slashes head)
  then rstrip slash head else head.

(** [os.path.split(p)]: [dirname] and what follows the last slash. *)
Definition split (p : string) : string * string :=
  (dirname p, match rfind slash p with Some j => drop (S j) p | None => p end).

(** [os.path.join(a, b)] for a relative [b]. *)
Definition join (a b : string) : string :=
  if startswith b "/" then b
  else if String.eqb a "" then b
  else match rfind slash a with
       | Some j => if Nat.eqb (S j) (String.length a) then a ++ b else a ++ "/" ++ b
       | None => a ++ "/" ++ b
       end.

(** [p.split('/')] *)
Fixpoint components (p : string) : list string :=
  match p with
  | EmptyString => [EmptyString]
  | String c p' =>
      if Ascii.eqb c slash then EmptyString :: components p'
      else match components p' with
           | h :: t => String c h :: t
           | [] => [String c EmptyString]
           end
  end.

(** ['/'.join(parts)] *)
Fixpoint join_parts (parts : list string) : string :=
  match parts with
  | [] => ""
  | [a] => a
  | a :: rest => a ++ "/" ++ join_parts rest
  end.

(** [str(Path(p))]: the text [pathlib] keeps of [p].  Empty and ['.']
    components go, and with them doubled and trailing slashes; exactly
    two leading slashes stay, three or more become one; what is left of
    a relative path with no component is ['.']. *)
Definition path_str (p : string) : string :=
  let root := if startswith p "//" && negb (startswith p "///") then "//"
              else if startswith p "/" then "/" else "" in
  let parts := List.filter (fun c => negb (String.eqb c "") && negb (String.eqb c "."))
                           (components p) in
  match root, parts with
  | EmptyString, [] => "."
  | _, _ => root ++ join_parts parts
  end.

(** A name the kernel refuses with ENAMETOOLONG: a component longer
    than NAME_MAX = 255 bytes, or a path that does not fit PATH_MAX =
    4096 bytes with its terminator. *)
Definition name_too_long (p : string) : bool :=
  (4095 <? String.length p)%nat
  || existsb (fun c => (255 <? String.length c)%nat) (components p).

(** [PurePath.name] of a path in the form [path_str] gives: the last
    component, none for ['.'] and for a root. *)
Definition name (p : string) : string :=
  if String.eqb p "." then ""
  else match rfind slash p with
       | Some j => drop (S j) p
       | None => p
       end.

(** [PurePath.suffix]:
    [i = name.rfind('.'); name[i:] if 0 < i < len(name) - 1 else ''] *)
Definition suffix (p : string) : string :=
  let n := name p in
  match rfind dot n with
  | Some i => if (0 <? i)%nat && (i <? String.length n - 1)%nat then drop i n else ""
  | None => ""
  end.

(** [PurePath.stem] *)
Definition stem (p : string) : string :=
  let n := name p in
  match rfind dot n with
  | Some i => if (0 <? i)%nat && (i <? String.length n - 1)%nat then take i n else n
  | None => n
  end.

(** [str(PurePath.parent)] of a path in the form [path_str] gives; a
    root is its own parent. *)
Definition parent (p : string) : string :=
  match rfind slash p with
  | Some 0%nat => "/"
  | Some 1%nat => if startswith p "//" then "//" else take 1 p
  | Some j => take j p
  | None => "."
  end.

(** [str(Path(d) / n)] for [d] in the form [path_str] gives and [n] one
    name. *)
Definition joinpath (d n : string) : string :=
  if String.eqb d "." then n
  else if String.eqb d "/" then "/" ++ n
  else if String.eqb d "//" then "//" ++ n
  else d ++ "/" ++ n.

End PosixPath.

(* ===================================================================== *)
(** * [midas_depth.py] *)
(* ===================================================================== *)

Module MidasDepth.
Import Py PosixPath.

(** ** Data *)

(** An image as [cv2.imread] returns it: rows of B, G, R triples. *)
Definition pixel : Type := Z * Z * Z.
Definition image : Type := list (list pixel).
(** A single-channel raster. *)
Definition raster (A : Type) : Type := list (list A).

(** [a.shape[:2]] *)
Definition shape {A} (a : list (list A)) : nat * nat :=
  (length a, match a with [] => 0%nat | r :: _ => length r end).

(** What a file holds: bytes in some encoding, or the 8-bit grayscale
    PNG this tool wrote (kept decoded, mode ['L']). *)
Inductive content :=
| Encoded (bytes : string)
| GrayPNG (pixels : raster Z).

Inductive node :=
| DirNode (entries : list string)
| FileNode (c : content).

(** The dictionary [generate_depth_map] returns. *)
Inductive depth_result :=
| DepthSuccess (input output : string) (depth_range : option (Q * Q)) (model : string)
| DepthError (error : string).

(** [r.get("success", False)] *)
Definition get_success (r : depth_result) : bool :=
  match r with DepthSuccess _ _ _ _ => true | DepthError _ => false end.

Record batch_entry := { file : string; result : depth_result }.

(** The dictionary [process_batch] returns. *)
Inductive batch_result :=
| BatchReport (batch_results : list batch_entry) (total_processed success_count : nat)
| BatchError (error : string).

(** A line on standard output: free text, or a JSON document. *)
Inductive line :=
| Text (s : string)
| JsonDepth (r : depth_result)
| JsonBatch (r : batch_result).

(** The process and its surroundings: the file system as a finite map
    from path strings (as handed to the operating system) to nodes, the
    paths the process may not write, and what was printed so far.  A
    directory that is always there (the working directory ['.'], its
    parent, the root) has a node when its entries matter. *)
Record proc := {
  files : gmap string node;
  readonly : gset string;
  stdout : list line
}.

(** ** The libraries behind the script *)

(** [torch], [cv2], [PIL] and the MiDaS hub entry points, as far as the
    script calls them.  Each may raise. *)
Class MidasLib := {
  tensor : Type;
  prediction : Type;
  (** decoding done by [cv2.imread(path)]; [None] when it cannot *)
  imdecode : content -> option image;
  (** decoding done by [cv2.imread(path, cv2.IMREAD_GRAYSCALE)] *)
  imdecode_gray : content -> option (raster Z);
  (** [self.transform(img_rgb).to(self.device)] *)
  dpt_transform : image -> outcome tensor;
  (** [self.model(input_tensor)] *)
  midas_model : tensor -> outcome prediction;
  (** [interpolate(prediction.unsqueeze(1), size, mode="bicubic",
      align_corners=False)]: the rows of the one plane of its
      (1, 1, H, W) result *)
  interpolate_bicubic : prediction -> nat * nat -> outcome (raster Q);
  (** the two [torch.hub.load] calls of [__init__] *)
  hub_load : outcome unit;
  (** [torch.cuda.is_available()], as [torch.device] is built from it *)
  cuda_is_available : outcome bool;
  (** [import cv2; from PIL import Image] inside the fallback *)
  import_cv2_pil : outcome unit;
  (** [cv2.Canny(img, lo, hi)] *)
  canny : raster Z -> Z -> Z -> outcome (raster Z);
  (** [cv2.GaussianBlur(img, (k, k), 0)] *)
  gaussian_blur : raster Z -> nat -> outcome (raster Z);
  (** the encoder [cv2.imwrite] picks from the file name; it raises
      when the extension has none *)
  imencode : string -> raster Z -> outcome content;
  (** [DEPENDENCIES_AVAILABLE] and [MISSING_DEPS], set by the guarded
      imports at the top of the module *)
  DEPENDENCIES_AVAILABLE : bool;
  MISSING_DEPS : string;
  (** [import numpy as np] at line 12, outside the guard *)
  import_numpy : outcome unit;
  (** an exception other than [ImportError] raised while the guarded
      modules of lines 14-22 are imported: the guard lets it through *)
  import_crash : option exn
}.

(** ** File-system primitives *)

Definition enoent (p : string) : exn :=
  Exn "FileNotFoundError" ("[Errno 2] No such file or directory: '" ++ p ++ "'").
Definition eacces (p : string) : exn :=
  Exn "PermissionError" ("[Errno 13] Permission denied: '" ++ p ++ "'").

Definition enametoolong (p : string) : exn :=
  Exn "OSError" ("[Errno 36] File name too long: '" ++ p ++ "'").
Definition eexist (p : string) : exn :=
  Exn "FileExistsError" ("[Errno 17] File exists: '" ++ p ++ "'").
Definition enotdir (p : string) : exn :=
  Exn "NotADirectoryError" ("[Errno 20] Not a directory: '" ++ p ++ "'").

(** [Path(p).exists()] for [p] as [path_str] gives it: [stat] failing
    with ENOENT or ENOTDIR means the path is not there; any other
    failure is raised, and a name that is too long is one.  Every
    directory on the way can be searched. *)
Definition path_exists (p : string) : M proc bool :=
  fun s => match files s !! p with
           | Some _ => (Ret true, s)
           | None => if name_too_long p then (Raise (enametoolong p), s)
                     else (Ret false, s)
           end.

(** [Path(p).iterdir()], consumed at once: the names of the entries,
    of files and of subdirectories alike.  Every directory can be
    read. *)
Definition iterdir (p : string) : M proc (list string) :=
  fun s => match files s !! p with
           | Some (DirNode names) => (Ret names, s)
           | Some (FileNode _) => (Raise (enotdir p), s)
           | None => (Raise (enoent p), s)
           end.

(** [cv2.imread]: [None] for a missing, unreadable or undecodable file;
    it does not raise. *)
Definition cv2_imread `{MidasLib} (p : string) : M proc (option image) :=
  fun s => match files s !! p with
           | Some (FileNode c) => (Ret (imdecode c), s)
           | _ => (Ret None, s)
           end.

Definition cv2_imread_gray `{MidasLib} (p : string) : M proc (option (raster Z)) :=
  fun s => match files s !! p with
           | Some (FileNode c) => (Ret (imdecode_gray c), s)
           | _ => (Ret None, s)
           end.

Definition set_files (s : proc) (f : gmap string node) : proc :=
  {| files := f; readonly := readonly s; stdout := stdout s |}.

(** The directories that are there whatever the map holds: the root,
    the working directory and its parent. *)
Definition always_there (p : string) : bool :=
  (negb (String.eqb p "") && all_slashes p) || String.eqb p "." || String.eqb p "..".

(** [os.path.exists(p)] and [os.path.isdir(p)]; neither raises, and
    [''] names nothing. *)
Definition fs_exists (s : proc) (p : string) : bool :=
  negb (String.eqb p "")
  && (always_there p || match files s !! p with Some _ => true | None => false end).

Definition fs_isdir (s : proc) (p : string) : bool :=
  negb (String.eqb p "")
  && (always_there p || match files s !! p with Some (DirNode _) => true | _ => false end).

(** [os.mkdir(d)] for a name without a trailing slash: the directory
    above [d] has to be one, [d] itself must not be there, and the
    process must be allowed to create it. *)
Definition os_mkdir (d : string) : M proc unit :=
  fun s =>
    if String.eqb d "" then (Raise (enoent ""), s)
    else if name_too_long d then (Raise (enametoolong d), s)
    else if fs_exists s d then (Raise (eexist d), s)
    else if negb (String.eqb (dirname d) "") && negb (fs_exists s (dirname d))
    then (Raise (enoent d), s)
    else if negb (String.eqb (dirname d) "") && negb (fs_isdir s (dirname d))
    then (Raise (enotdir d), s)
    else if bool_decide (d ∈ readonly s) then (Raise (eacces d), s)
    else (Ret tt, set_files s (<[d := DirNode []]> (files s))).

(** The last step of [os.makedirs(d, exist_ok=True)]:
    [try: mkdir(d) except OSError: if not path.isdir(d): raise]. *)
Definition mkdir_exist_ok (d : string) : M proc unit :=
  fun s => match os_mkdir d s with
           | (Ret _, s1) => (Ret tt, s1)
           | (Raise e, s1) => if fs_isdir s1 d then (Ret tt, s1) else (Raise e, s1)
           end.

(** [head, tail = path.split(d); if not tail: head, tail = path.split(head)] *)
Definition makedirs_split (d : string) : string * string :=
  let '(head, tail) := split d in
  if String.eqb tail "" then split head else (head, tail).

(** [os.makedirs(d, exist_ok=True)]: when the directory above [d] is
    missing it is made first, by the same function, with a
    [FileExistsError] of that call dropped; then [d] is.  [fuel] bounds
    the nesting of the calls; each is on a shorter name, so the length
    of [d] is enough ([makedirs_enough_fuel]).  Python's own limit on
    nested calls is not part of the model. *)
Fixpoint makedirs (fuel : nat) (d : string) : M proc unit :=
  let '(head, tail) := makedirs_split d in
  fun s =>
    if negb (String.eqb head "") && negb (String.eqb tail "") && negb (fs_exists s head)
    then match fuel with
         | O => mkdir_exist_ok d s
         | S fuel' =>
             match try_except (makedirs fuel' head)
                              (fun e => if String.eqb (exn_kind e) "FileExistsError"
                                        then ret tt else raise e) s with
             | (Raise e, s1) => (Raise e, s1)
             | (Ret _, s1) =>
                 (* xxx/newdir/. exists if xxx/newdir exists *)
                 if String.eqb tail "." then (Ret tt, s1) else mkdir_exist_ok d s1
             end
         end
    else mkdir_exist_ok d s.

(** The empty name is refused by [mkdir] with ENOENT, and [exist_ok]
    does not cover it since [''] is not a directory. *)
Definition os_makedirs (d : string) : M proc unit :=
  makedirs (String.length d) d.

(** Opening [p] for writing and storing [c] in it. *)
Definition write_file (p : string) (c : content) : M proc unit :=
  fun s =>
    if String.eqb p "" then (Raise (enoent ""), s)
    else if name_too_long p then (Raise (enametoolong p), s)
    else match files s !! p with
         | Some (DirNode _) =>
             (Raise (Exn "IsADirectoryError" ("[Errno 21] Is a directory: '" ++ p ++ "'")), s)
         | _ =>
             if bool_decide (p ∈ readonly s) then (Raise (eacces p), s)
             else (Ret tt, set_files s (<[p := FileNode c]> (files s)))
         end.

(** [print(x)] *)
Definition printed (s : proc) (l : line) : proc :=
  {| files := files s; readonly := readonly s; stdout := stdout s ++ [l] |}.

Definition print (l : line) : M proc unit := fun s => (Ret tt, printed s l).

(** ** What a step may do to the process

    Three relations between the process before and after, used to state
    what the operations leave alone. *)




(** ** Normalisation to 8 bits (lines 84-93)

    [depth_map] is the array of raw depth values, read as rationals. *)

Definition qmin (a b : Q) : Q := if Qlt_le_dec b a then b else a.
Definition qmax (a b : Q) : Q := if Qlt_le_dec a b then b else a.

Definition zero_size (op : string) : exn :=
  Exn "ValueError"
      ("zero-size array to reduction operation " ++ op ++ " which has no identity").

(** [a.min()] and [a.max()] *)
Definition amin (a : raster Q) : outcome Q :=
  match concat a with
  | [] => Raise (zero_size "minimum")
  | x :: xs => Ret (fold_left qmin xs x)
  end.

Definition amax (a : raster Q) : outcome Q :=
  match concat a with
  | [] => Raise (zero_size "maximum")
  | x :: xs => Ret (fold_left qmax xs x)
  end.

(** [np.zeros_like(a)] *)
Definition zeros_like (a : raster Q) : raster Q := map (map (fun _ => 0%Q)) a.

(** [.astype(np.uint8)] of one value: truncation toward zero, kept in
    eight bits. *)
Definition astype_uint8 (x : Q) : Z :=
  (Z.quot (Qnum x) (Zpos (Qden x))) mod 256.

(** Lines 88-91. *)
Definition normalize (depth_map : raster Q) (depth_min depth_max : Q) : raster Q :=
  if Qlt_le_dec depth_min depth_max
  then map (map (fun x => ((x - depth_min) / (depth_max - depth_min))%Q)) depth_map
  else zeros_like depth_map.

(** Line 93. *)
Definition to_uint8 (depth_normalized : raster Q) : raster Z :=
  map (map (fun x => astype_uint8 (x * 255)%Q)) depth_normalized.

(** Lines 84-93: the raster to write and the range it was scaled from. *)
Definition depth_to_uint8 (depth_map : raster Q) : outcome (raster Z * (Q * Q)) :=
  match amin depth_map with
  | Raise e => Raise e
  | Ret depth_min =>
      match amax depth_map with
      | Raise e => Raise e
      | Ret depth_max =>
          Ret (to_uint8 (normalize depth_map depth_min depth_max), (depth_min, depth_max))
      end
  end.

(** ** [MiDaSDepthGenerator.generate_depth_map] *)

(** A NumPy array of at most two dimensions. *)
Inductive ndarray (A : Type) : Type :=
| Scalar (x : A)
| Vector (xs : list A)
| Matrix (rows : raster A).
Arguments Scalar {A} x.
Arguments Vector {A} xs.
Arguments Matrix {A} rows.

(** [.squeeze()] of an array of shape (1, 1, H, W), given by the rows of
    its plane: every dimension of size one goes, H and W too when they
    are one. *)
Definition squeeze {A} (a : raster A) : ndarray A :=
  let '(h, w) := shape a in
  if Nat.eqb h 1 && Nat.eqb w 1 then
    match concat a with
    | x :: _ => Scalar x
    | [] => Vector []
    end
  else if Nat.eqb h 1 || Nat.eqb w 1 then Vector (concat a)
  else Matrix a.

(** [Image.fromarray(a, mode='L')]: the size is [(shape[1], shape[0])],
    with 1 for [shape[1]] when [a] has one dimension, so that a vector
    becomes a column; an array of no dimension has no [shape[0]]. *)
Definition fromarray_L (a : ndarray Z) : outcome (raster Z) :=
  match a with
  | Scalar _ => Raise (Exn "IndexError" "tuple index out of range")
  | Vector xs => Ret (map (fun x => [x]) xs)
  | Matrix rows => Ret rows
  end.

(** [cv2.cvtColor(img, cv2.COLOR_BGR2RGB)] *)
Definition cvtColor_BGR2RGB (img : image) : image :=
  map (map (fun '(b, g, r) => (r, g, b))) img.

Section Generator.
Context `{L : MidasLib}.

Notation "'let*' x ':=' m 'in' k" := (bind m (fun x => k))
  (at level 10, x pattern, m at level 100, k at level 200, only parsing).

(** The body of the [try]. *)
Definition generate_depth_map_body (input_path output_path : string) : M proc depth_result :=
  let* img := cv2_imread input_path in
  match img with
  | None => ret (DepthError ("Could not load image: " ++ input_path))
  | Some img =>
      let img_rgb := cvtColor_BGR2RGB img in
      let* input_tensor := call (dpt_transform img_rgb) in
      let* prediction := call (midas_model input_tensor) in
      let* depth_map := call (interpolate_bicubic prediction (shape img_rgb)) in
      (* .squeeze() is applied at line 80; the arithmetic of lines 84-93
         works element by element, so the model applies it to the rows
         and squeezes the result *)
      let* (depth_uint8, (depth_min, depth_max)) := call (depth_to_uint8 depth_map) in
      let* _ := os_makedirs (dirname output_path) in
      let* depth_image := call (fromarray_L (squeeze depth_uint8)) in
      (* depth_image.save(output_path, 'PNG') *)
      let* _ := write_file output_path (GrayPNG depth_image) in
      ret (DepthSuccess input_path output_path (Some (depth_min, depth_max)) "MiDaS DPT-Hybrid")
  end.

Definition generate_depth_map (input_path output_path : string) : M proc depth_result :=
  try_except (generate_depth_map_body input_path output_path)
             (fun e => ret (DepthError ("Depth map generation failed: " ++ exn_str e))).

(** The failures the body can meet, stage by stage. *)
Inductive stage_failure (input_path output_path : string) (s : proc) : exn -> Prop :=
| transform_fails c img e :
    files s !! input_path = Some (FileNode c) -> imdecode c = Some img ->
    dpt_transform (cvtColor_BGR2RGB img) = Raise e ->
    stage_failure input_path output_path s e
| model_fails c img t e :
    files s !! input_path = Some (FileNode c) -> imdecode c = Some img ->
    dpt_transform (cvtColor_BGR2RGB img) = Ret t ->
    midas_model t = Raise e ->
    stage_failure input_path output_path s e
| resize_fails c img t pr e :
    files s !! input_path = Some (FileNode c) -> imdecode c = Some img ->
    dpt_transform (cvtColor_BGR2RGB img) = Ret t ->
    midas_model t = Ret pr ->
    interpolate_bicubic pr (shape (cvtColor_BGR2RGB img)) = Raise e ->
    stage_failure input_path output_path s e
| normalisation_fails c img t pr d e :
    files s !! input_path = Some (FileNode c) -> imdecode c = Some img ->
    dpt_transform (cvtColor_BGR2RGB img) = Ret t ->
    midas_model t = Ret pr ->
    interpolate_bicubic pr (shape (cvtColor_BGR2RGB img)) = Ret d ->
    depth_to_uint8 d = Raise e ->
    stage_failure input_path output_path s e
| makedirs_fails c img t pr d px rg e s' :
    files s !! input_path = Some (FileNode c) -> imdecode c = Some img ->
    dpt_transform (cvtColor_BGR2RGB img) = Ret t ->
    midas_model t = Ret pr ->
    interpolate_bicubic pr (shape (cvtColor_BGR2RGB img)) = Ret d ->
    depth_to_uint8 d = Ret (px, rg) ->
    os_makedirs (dirname output_path) s = (Raise e, s') ->
    stage_failure input_path output_path s e
| fromarray_fails c img t pr d px rg e s' :
    files s !! input_path = Some (FileNode c) -> imdecode c = Some img ->
    dpt_transform (cvtColor_BGR2RGB img) = Ret t ->
    midas_model t = Ret pr ->
    interpolate_bicubic pr (shape (cvtColor_BGR2RGB img)) = Ret d ->
    depth_to_uint8 d = Ret (px, rg) ->
    os_makedirs (dirname output_path) s = (Ret tt, s') ->
    fromarray_L (squeeze px) = Raise e ->
    stage_failure input_path output_path s e
| write_fails c img t pr d px rg im e s1 s' :
    files s !! input_path = Some (FileNode c) -> imdecode c = Some img ->
    dpt_transform (cvtColor_BGR2RGB img) = Ret t ->
    midas_model t = Ret pr ->
    interpolate_bicubic pr (shape (cvtColor_BGR2RGB img)) = Ret d ->
    depth_to_uint8 d = Ret (px, rg) ->
    os_makedirs (dirname output_path) s = (Ret tt, s1) ->
    fromarray_L (squeeze px) = Ret im ->
    write_file output_path (GrayPNG im) s1 = (Raise e, s') ->
    stage_failure input_path output_path s e.

(** ** [MiDaSDepthGenerator.process_batch] *)

(** The entries of the directory are handled by name: [f.suffix],
    [f.stem] and [f.name] are those of the entry's name, and [str(f)]
    is the directory joined with it. *)

Definition image_extensions : list string := [".png"; ".jpg"; ".jpeg"; ".bmp"; ".tiff"].

(** [f.suffix.lower() in image_extensions] *)
Definition is_image_file (f : string) : bool :=
  bool_decide (lower (suffix f) ∈ image_extensions).

(** The body of the [for] loop. *)
Definition batch_step (input_dir output_dir img_file : string) : M proc batch_entry :=
  let output_file := joinpath output_dir ("depth_" ++ stem img_file ++ ".png") in
  let* result := generate_depth_map (joinpath input_dir img_file) output_file in
  ret {| file := name img_file; result := result |}.

(** Lines 125-153: [input_dir] is the argument as the caller wrote it,
    [input_path] and [output_path] are the two [Path]s of lines 121-122,
    by their text. *)
Definition process_batch_paths (input_dir input_path output_path : string)
  : M proc batch_result :=
  let* ex := path_exists input_path in
  if negb ex then ret (BatchError ("Input directory does not exist: " ++ input_dir))
  else
    let* entries := iterdir input_path in
    let image_files := List.filter is_image_file entries in
    match image_files with
    | [] => ret (BatchError "No image files found in input directory")
    | _ =>
        let* results := for_append (batch_step input_path output_path) image_files in
        ret (BatchReport results (length results)
                         (length (List.filter (fun r => get_success (result r)) results)))
    end.

(** The method on two strings that [Path] keeps as they are. *)
Definition process_batch (input_dir output_dir : string) : M proc batch_result :=
  process_batch_paths input_dir input_dir output_dir.

(** The method on any two strings. *)
Definition process_batch_any (input_dir output_dir : string) : M proc batch_result :=
  process_batch_paths input_dir (path_str input_dir) (path_str output_dir).

(** ** [create_fallback_depth_map] *)

(** [cv2.imwrite(path, img)]: raises when no encoder fits the name;
    a file that cannot be written only makes it return [False], which
    the caller drops. *)
Definition cv2_imwrite (p : string) (img : raster Z) : M proc bool :=
  let* c := call (imencode p img) in
  try_except (let* _ := write_file p c in ret true) (fun _ => ret false).

Definition create_fallback_depth_map (input_path output_path : string) : M proc depth_result :=
  try_except
    (let* _ := call import_cv2_pil in
     let* img := cv2_imread_gray input_path in
     match img with
     | None => ret (DepthError ("Could not load image: " ++ input_path))
     | Some img =>
         let* edges := call (canny img 50 150) in
         let depth_sim := map (map (fun e => ((255 - e) mod 256)%Z)) edges in
         let* depth_blur := call (gaussian_blur depth_sim 15) in
         let* _ := os_makedirs (dirname output_path) in
         let* _ := cv2_imwrite output_path depth_blur in
         ret (DepthSuccess input_path output_path None "Fallback Edge-based Depth Simulation")
     end)
    (fun e => ret (DepthError ("Fallback depth generation failed: " ++ exn_str e))).

(** ** [MiDaSDepthGenerator.__init__] *)

Definition init_generator : M proc unit :=
  if negb DEPENDENCIES_AVAILABLE
  then raise (Exn "ImportError" ("Required dependencies not available: " ++ MISSING_DEPS))
  else
    let* cuda := call cuda_is_available in
    let device := if (cuda : bool) then "cuda" else "cpu" in
    let* _ := print (Text ("Using device: " ++ device)) in
    try_except
      (let* _ := call hub_load in
       print (Text "✓ MiDaS DPT-Hybrid model loaded successfully"))
      (fun e => raise (Exn "RuntimeError" ("Failed to load MiDaS model: " ++ exn_str e))).


(** ** [main] *)

(** The parsed command line: [--input], [--output], [--batch]. *)
Record args := { input : string; output : option string; batch : bool }.

(** [x or y] on an optional string: [None] and [''] are false. *)
Definition or_else (x : option string) (y : string) : string :=
  match x with
  | Some EmptyString | None => y
  | Some v => v
  end.

(** [str(Path(input).parent / 'depthmaps' / f"depth_{Path(input).stem}.png")] *)
Definition default_output (input : string) : string :=
  let input_path := path_str input in
  joinpath (joinpath (parent input_path) "depthmaps") ("depth_" ++ stem input_path ++ ".png").

(** [main] after [parse_args]; the value is the exit status. *)
Definition main (a : args) : M proc Z :=
  try_except
    (let* result :=
       if DEPENDENCIES_AVAILABLE then
         let* _ := init_generator in
         if batch a then
           let output_dir := or_else (output a) (join (dirname (input a)) "depthmaps") in
           let* r := process_batch_any (input a) output_dir in
           ret (JsonBatch r)
         else
           let output_path := or_else (output a) (default_output (input a)) in
           let* r := generate_depth_map (input a) output_path in
           ret (JsonDepth r)
       else
         if batch a then
           ret (JsonDepth (DepthError "Batch mode not supported in fallback mode"))
         else
           let output_path := or_else (output a) (default_output (input a)) in
           let* r := create_fallback_depth_map (input a) output_path in
           ret (JsonDepth r)
     in
     let* _ := print result in
     ret 0%Z)
    (fun e =>
       let* _ := print (JsonDepth (DepthError ("Script execution failed: " ++ exn_str e))) in
       ret 1%Z).

(** ** The script from its first line *)

(** What [parser.parse_args()] makes of the command line: the
    arguments, or [--help] with the usage text it prints before exiting
    with status 0, or a command line it refuses ([--input] missing, an
    unknown option) with status 2 and its complaint on standard
    error. *)
Inductive command_line :=
| Parsed (a : args)
| HelpRequested (usage : string)
| Rejected.



(** Lines 12-22, then [main()] from line 191. *)
Definition script (c : command_line) : M proc Z :=
  let* _ := call import_numpy in
  match import_crash with
  | Some e => raise e
  | None =>
      match c with
      | Parsed a => main a
      | HelpRequested usage => let* _ := print (Text usage) in ret 0%Z
      | Rejected => ret 2%Z
      end
  end.

End Generator.

End MidasDepth.

(* ===================================================================== *)
(** * [openclip_embeddings.py] *)
(* ===================================================================== *)

Module OpenclipEmbeddings.
Import Py.

(** The arithmetic the script does on feature values, over a type [F]
    of numbers: elementwise division and the Euclidean norm
    ([tensor.norm(dim=-1)], [np.linalg.norm]). *)
Class FloatOps (F : Type) := {
  fdiv : F -> F -> F;
  fnorm : list F -> F
}.

(** [PIL], [open_clip], [torch], [hashlib], [numpy.random] and [base64],
    as far as the script calls them. *)
Class ClipLib (F : Type) := {
  pil_image : Type;
  rgb_image : Type;
  tensor : Type;
  rng_state : Type;
  (** [base64.b64decode] *)
  b64decode : string -> outcome string;
  (** [Image.open(BytesIO(data))] *)
  image_open_bytes : string -> outcome pil_image;
  (** [Image.open(path)], the file system being what it is at the call *)
  image_open_path : string -> outcome pil_image;
  (** [.convert('RGB')] *)
  convert_rgb : pil_image -> outcome rgb_image;
  (** [self.preprocess(image).unsqueeze(0).to(self.device)] *)
  preprocess : rgb_image -> outcome tensor;
  (** [self.model.encode_image(t)]: the one row of features *)
  encode_image : tensor -> outcome (list F);
  (** [image.resize((224, 224))] *)
  resize_224 : rgb_image -> outcome rgb_image;
  (** [np.array(image).tobytes()] *)
  tobytes : rgb_image -> string;
  (** [hashlib.md5(b).hexdigest()] *)
  md5_hexdigest : string -> string;
  (** the generator state [np.random.seed(n)] installs *)
  mt_seed : Z -> rng_state;
  (** one draw of the legacy standard-normal sampler *)
  gauss : rng_state -> F * rng_state;
  (** whether [from PIL import Image] succeeds *)
  PIL_INSTALLED : bool;
  (** [OPENCLIP_AVAILABLE] *)
  OPENCLIP_AVAILABLE : bool;
  (** [open_clip.create_model_and_transforms(...)] and [model.eval()] *)
  create_model : outcome unit;
  (** [import numpy as np] at line 11, outside any guard *)
  import_numpy : outcome unit;
  (** an exception other than [ImportError] raised while [PIL] (line
      14), or [open_clip] and [torch] (lines 21-22), are imported: the
      guards let it through *)
  pil_import_crash : option exn;
  openclip_import_crash : option exn;
  (** [torch.device('cuda' if torch.cuda.is_available() else 'cpu')] at
      line 31, before the [try] *)
  torch_device : outcome unit
}.

(** The dictionary [generate_embedding] returns. *)
Inductive emb_result (F : Type) :=
| EmbOk (embedding : list F) (dimensions : nat) (model : string)
| EmbError (error : string).
Arguments EmbOk {F} embedding dimensions model.
Arguments EmbError {F} error.

Section Embedder.
Context {F : Type} `{A : FloatOps F} `{L : ClipLib F}.

(** The process: numpy's global generator and what was printed. *)
Record proc := { rng : rng_state; stdout : list (emb_result F) }.

Notation "'let*' x ':=' m 'in' k" := (bind m (fun x => k))
  (at level 10, x pattern, m at level 100, k at level 200, only parsing).

(** [print(json.dumps(x))] *)
Definition print (x : emb_result F) : M proc unit :=
  fun s => (Ret tt, {| rng := rng s; stdout := stdout s ++ [x] |}).

(** [np.random.seed(n)] *)
Definition np_random_seed (n : Z) : M proc unit :=
  fun s =>
    if ((0 <=? n) && (n <? 2 ^ 32))%Z
    then (Ret tt, {| rng := mt_seed n; stdout := stdout s |})
    else (Raise (Exn "ValueError" "Seed must be between 0 and 2**32 - 1"), s).

(** [n] successive draws. *)
Fixpoint draws (n : nat) (st : rng_state) : list F * rng_state :=
  match n with
  | O => ([], st)
  | S n' => let '(x, st1) := gauss st in
            let '(xs, st2) := draws n' st1 in
            (x :: xs, st2)
  end.

(** [np.random.normal(0, 1, n)] *)
Definition np_random_normal (n : nat) : M proc (list F) :=
  fun s => let '(xs, st) := draws n (rng s) in
           (Ret xs, {| rng := st; stdout := stdout s |}).

(** [v / norm(v)] *)
Definition normalized (v : list F) : list F :=
  let n := fnorm v in map (fun x => fdiv x n) v.

(** Lines 63-64 and 70-71: a base64 payload decoded and opened. *)
Definition open_base64 (encoded : string) : outcome rgb_image :=
  match b64decode encoded with
  | Raise e => Raise e
  | Ret image_data =>
      match image_open_bytes image_data with
      | Raise e => Raise e
      | Ret im => convert_rgb im
      end
  end.

(** Line 67: a file opened by its path. *)
Definition open_path (path : string) : outcome rgb_image :=
  match image_open_path path with
  | Raise e => Raise e
  | Ret im => convert_rgb im
  end.

(** Lines 60-71: the image the argument denotes. *)
Definition load_image (image_path_or_base64 : string) : outcome rgb_image :=
  if startswith image_path_or_base64 "data:image" then
    match unpack2 (split1 ","%char image_path_or_base64) with
    | Raise e => Raise e
    | Ret (header, encoded) => open_base64 encoded
    end
  else if startswith image_path_or_base64 "/" || startswith image_path_or_base64 "./" then
    open_path image_path_or_base64
  else open_base64 image_path_or_base64.

(** Lines 74-90. *)
Definition real_embedding (image : rgb_image) : M proc (emb_result F) :=
  let* image_tensor := call (preprocess image) in
  let* image_features := call (encode_image image_tensor) in
  let embedding := normalized image_features in
  ret (EmbOk embedding (length embedding) "OpenCLIP ViT-H/14").

(** Lines 92-108. *)
Definition fallback_embedding (image : rgb_image) : M proc (emb_result F) :=
  let* small := call (resize_224 image) in
  let img_hash := md5_hexdigest (tobytes small) in
  let* seed := call (int16 (take 8 img_hash)) in
  let* _ := np_random_seed seed in
  let* embedding := np_random_normal 1024 in
  ret (EmbOk (normalized embedding) 1024
             "Fallback 1024D (install open-clip-torch for real OpenCLIP)").

(** [OpenCLIPEmbedder.generate_embedding], [fallback] being
    [self.fallback]. *)
Definition generate_embedding (fallback : bool) (image_path_or_base64 : string)
  : M proc (emb_result F) :=
  try_except
    (let* image := call (load_image image_path_or_base64) in
     if negb fallback then real_embedding image else fallback_embedding image)
    (fun e => ret (EmbError ("Failed to generate embedding: " ++ exn_str e))).

(** [OpenCLIPEmbedder.__init__]: the value it leaves in
    [self.fallback], or the status its [sys.exit] ends the process
    with. *)
Definition init_embedder : M proc (bool + Z) :=
  if OPENCLIP_AVAILABLE then
    let* _ := call torch_device in
    match create_model with
    | Ret _ => ret (inl false)
    | Raise e =>
        let* _ := print (EmbError ("Failed to load OpenCLIP model: " ++ exn_str e)) in
        ret (inr 1%Z)
    end
  else ret (inl true).

(** [main]; [argv] is [sys.argv] and the value is the exit status. *)
Definition main (argv : list string) : M proc Z :=
  match argv with
  | [_; arg] =>
      let* embedder := init_embedder in
      match embedder with
      | inr status => ret status
      | inl fallback =>
          let* result := generate_embedding fallback arg in
          let* _ := print result in
          ret 0%Z
      end
  | _ =>
      let* _ := print (EmbError "Usage: python openclip_embeddings.py <image_path_or_base64>") in
      ret 1%Z
  end.

(** The script from its first line: the imports of lines 7-25 that
    can fail, then [main].  An exception nothing catches ends the
    script as [Raise]. *)
Definition run (argv : list string) : M proc Z :=
  let* _ := call import_numpy in
  match pil_import_crash with
  | Some e => raise e
  | None =>
      if negb PIL_INSTALLED then
        let* _ := print (EmbError "PIL/Pillow not installed") in ret 1%Z
      else
        match openclip_import_crash with
        | Some e => raise e
        | None => main argv
        end
  end.

(** An exception that reaches the top level: an import failing outside
    its guard, or [torch.device] failing in [__init__]. *)
Definition dies (argv : list string) : Prop :=
  (exists e, import_numpy = Raise e) \/
  (exists e, pil_import_crash = Some e) \/
  (PIL_INSTALLED = true /\ exists e, openclip_import_crash = Some e) \/
  (PIL_INSTALLED = true /\ OPENCLIP_AVAILABLE = true /\ length argv = 2%nat /\
   exists e, torch_device = Raise e).

End Embedder.

(** ** Feature values as real numbers

    The arithmetic of the two normalisations, read over the reals: the
    sum of squares, its square root, and division. *)

Definition sum_squares (v : list R) : R := fold_right (fun x acc => (x * x + acc)%R) 0%R v.

Definition l2_norm (v : list R) : R := sqrt (sum_squares v).

#[export] Instance RealOps : FloatOps R := {| fdiv := Rdiv; fnorm := l2_norm |}.

(** What the script takes for granted of the pretrained network and of
    the sampler: ViT-H/14 yields [n] = 1024 features, and neither ever
    yields the zero vector (whose norm would be divided by). *)
Definition model_dimension `{L : ClipLib R} (n : nat) : Prop :=
  forall t v, encode_image t = Ret v -> length v = n.

Definition never_zero `{L : ClipLib R} : Prop :=
  (forall t v, encode_image t = Ret v -> sum_squares v <> 0%R) /\
  (forall seed, sum_squares (fst (draws 1024 (mt_seed seed))) <> 0%R).

End OpenclipEmbeddings.

(* ===================================================================== *)
(** * A small instance of the libraries, to run the definitions on *)
(* ===================================================================== *)

Module Demo.
Import Py MidasDepth.

(** A stand-in for the imaging and network libraries: a file of bytes
    decodes to one row of gray pixels, one per byte, except that the
    bytes ["chart"] decode to a 640x480 image; the "network" reports the
    sum of the channels. *)
Definition decode (c : content) : option image :=
  match c with
  | Encoded EmptyString => None
  | Encoded b =>
      if String.eqb b "chart" then Some (repeat (repeat (10, 20, 30)%Z 640) 480)
      else Some [map (fun a => let v := Z.of_nat (nat_of_ascii a) in (v, v, v))
                     (list_ascii_of_string b)]
  | GrayPNG px => Some (map (map (fun v => (v, v, v))) px)
  end.

Definition decode_gray (c : content) : option (raster Z) :=
  match decode c with
  | Some img => Some (map (map (fun '(b, _, _) => b)) img)
  | None => None
  end.

Definition lib_with (numpy : outcome unit) (crash : option exn) (deps : bool) : MidasLib := {|
  tensor := image;
  prediction := raster Q;
  imdecode := decode;
  imdecode_gray := decode_gray;
  dpt_transform := fun img => Ret img;
  midas_model := fun img => Ret (map (map (fun '(r, g, b) => inject_Z (r + g + b))) img);
  interpolate_bicubic := fun pr _ => Ret pr;
  hub_load := Ret tt;
  cuda_is_available := Ret false;
  import_cv2_pil := Ret tt;
  canny := fun img lo hi => Ret (map (map (fun v => if (v <? hi)%Z then 0%Z else 255%Z)) img);
  gaussian_blur := fun img _ => Ret img;
  imencode := fun _ img => Ret (GrayPNG img);
  DEPENDENCIES_AVAILABLE := deps;
  MISSING_DEPS := if deps then "" else "No module named 'torch'";
  import_numpy := numpy;
  import_crash := crash
|}.

(** Every import going through, or only those of the guarded modules
    failing with [ImportError]. *)
Definition lib (deps : bool) : MidasLib := lib_with (Ret tt) None deps.

(** A working directory with one chart, and a directory of mixed files. *)
Definition disk : gmap string node :=
  list_to_map
    [ ("chart.png", FileNode (Encoded "chart"));
      ("charts", DirNode ["a.png"; "notes.txt"; "B.JPG"; "broken.bmp"]);
      ("charts/a.png", FileNode (Encoded "abc"));
      ("charts/notes.txt", FileNode (Encoded "hello"));
      ("charts/B.JPG", FileNode (Encoded "zz"));
      ("charts/broken.bmp", FileNode (Encoded ""));
      ("docs", DirNode ["readme.md"; ".png"]);
      ("docs/readme.md", FileNode (Encoded "text"));
      ("scans", DirNode ["old.png"]);
      ("scans/old.png", DirNode []);
      ("tiles", DirNode ["grid.png"; "dot.png"]);
      ("tiles/grid.png", FileNode (GrayPNG [[0; 10]; [20; 30]]%Z));
      ("tiles/dot.png", FileNode (GrayPNG [[7]]%Z));
      ("mixed", DirNode ["a.png"; "depth_a.png"]);
      ("mixed/a.png", FileNode (Encoded "abc"));
      ("mixed/depth_a.png", FileNode (Encoded "zz")) ].

(** A name of 300 letters. *)
Definition long_name : string := string_of_list_ascii (repeat "x"%char 300).

Definition start : proc := {| files := disk; readonly := ∅; stdout := [] |}.

(** The same disk with one path the process may not write. *)
Definition locked : proc :=
  {| files := disk; readonly := {["out/depth.png"]}; stdout := [] |}.

(** The same libraries with a model hub that cannot be reached. *)
Definition lib_offline : MidasLib := {|
  tensor := image;
  prediction := raster Q;
  imdecode := decode;
  imdecode_gray := decode_gray;
  dpt_transform := fun img => Ret img;
  midas_model := fun img => Ret (map (map (fun '(r, g, b) => inject_Z (r + g + b))) img);
  interpolate_bicubic := fun pr _ => Ret pr;
  hub_load := Raise (Exn "URLError" "<urlopen error [Errno -3] Temporary failure in name resolution>");
  cuda_is_available := Ret false;
  import_cv2_pil := Ret tt;
  canny := fun img lo hi => Ret (map (map (fun v => if (v <? hi)%Z then 0%Z else 255%Z)) img);
  gaussian_blur := fun img _ => Ret img;
  imencode := fun _ img => Ret (GrayPNG img);
  DEPENDENCIES_AVAILABLE := true;
  MISSING_DEPS := "";
  import_numpy := Ret tt;
  import_crash := None
|}.

(** A stand-in for the embedding libraries, over the reals: base64 text
    is accepted when its length is a multiple of four and stands for
    itself, an image is one that starts with the PNG signature, one
    file exists, the "network" answers with a vector of norm 5 and
    the sampler with ones, a vector of norm 32. *)
Definition clip_with (numpy device : outcome unit) (openclip : bool) (loads : bool)
  : OpenclipEmbeddings.ClipLib R := {|
  OpenclipEmbeddings.pil_image := string;
  OpenclipEmbeddings.rgb_image := string;
  OpenclipEmbeddings.tensor := string;
  OpenclipEmbeddings.rng_state := Z;
  OpenclipEmbeddings.b64decode := fun e =>
    if Nat.eqb (String.length e mod 4) 0 then Ret e
    else Raise (Exn "binascii.Error" "Incorrect padding");
  OpenclipEmbeddings.image_open_bytes := fun b =>
    if startswith b "iVBORw0KGgo" then Ret b
    else Raise (Exn "UnidentifiedImageError" "cannot identify image file");
  OpenclipEmbeddings.image_open_path := fun p =>
    if String.eqb p "/data/chart.png" then Ret "iVBORw0KGgoAAAAN"
    else Raise (Exn "FileNotFoundError"
                    ("[Errno 2] No such file or directory: '" ++ p ++ "'"));
  OpenclipEmbeddings.convert_rgb := fun im => Ret im;
  OpenclipEmbeddings.preprocess := fun im => Ret im;
  OpenclipEmbeddings.encode_image := fun _ => Ret (3%R :: 4%R :: repeat 0%R 1022);
  OpenclipEmbeddings.resize_224 := fun im => Ret im;
  OpenclipEmbeddings.tobytes := fun im => im;
  OpenclipEmbeddings.md5_hexdigest := fun _ => "9e107d9d372bb6826bd81d3542a419d6";
  OpenclipEmbeddings.mt_seed := fun n => n;
  OpenclipEmbeddings.gauss := fun st => (1%R, (st + 1)%Z);
  OpenclipEmbeddings.PIL_INSTALLED := true;
  OpenclipEmbeddings.OPENCLIP_AVAILABLE := openclip;
  OpenclipEmbeddings.create_model :=
    if loads then Ret tt else Raise (Exn "RuntimeError" "model weights not found");
  OpenclipEmbeddings.import_numpy := numpy;
  OpenclipEmbeddings.pil_import_crash := None;
  OpenclipEmbeddings.openclip_import_crash := None;
  OpenclipEmbeddings.torch_device := device
|}.

Definition clip (openclip : bool) (loads : bool) : OpenclipEmbeddings.ClipLib R :=
  clip_with (Ret tt) (Ret tt) openclip loads.

(** The embedding process with the generator in state [g] and [out]
    printed; at its start nothing is. *)
Definition clip_proc (openclip loads : bool) (g : Z)
    (out : list (OpenclipEmbeddings.emb_result R))
  : OpenclipEmbeddings.proc (L := clip openclip loads) :=
  @OpenclipEmbeddings.Build_proc R (clip openclip loads) g out.

Definition clip_start (openclip loads : bool) (g : Z)
  : OpenclipEmbeddings.proc (L := clip openclip loads) :=
  clip_proc openclip loads g [].

End Demo.

(* ===================================================================== *)
(** * Properties of the depth-map tool *)
(* ===================================================================== *)

Import Py PosixPath.

Section DepthNormalisation.
Import MidasDepth.

(** ** Minimum and maximum of a raster *)

Lemma qmin_le_l a b : (qmin a b <= a)%Q.
Proof. unfold qmin. destruct (Qlt_le_dec b a); [apply Qlt_le_weak; assumption | apply Qle_refl]. Qed.

Lemma qmin_le_r a b : (qmin a b <= b)%Q.
Proof. unfold qmin. destruct (Qlt_le_dec b a); [apply Qle_refl | assumption]. Qed.

Lemma qmax_ge_l a b : (a <= qmax a b)%Q.
Proof. unfold qmax. destruct (Qlt_le_dec a b); [apply Qlt_le_weak; assumption | apply Qle_refl]. Qed.

Lemma qmax_ge_r a b : (b <= qmax a b)%Q.
Proof. unfold qmax. destruct (Qlt_le_dec a b); [apply Qle_refl | assumption]. Qed.

Lemma fold_qmin_le xs : forall x,
  (fold_left qmin xs x <= x)%Q /\ Forall (fun y => (fold_left qmin xs x <= y)%Q) xs.
Proof.
  induction xs as [|y ys IH]; intros x; simpl.
  - split; [apply Qle_refl | constructor].
  - destruct (IH (qmin x y)) as [H1 H2]. split.
    + eapply Qle_trans; [exact H1 | apply qmin_le_l].
    + constructor; [eapply Qle_trans; [exact H1 | apply qmin_le_r] | exact H2].
Qed.

Lemma fold_qmax_ge xs : forall x,
  (x <= fold_left qmax xs x)%Q /\ Forall (fun y => (y <= fold_left qmax xs x)%Q) xs.
Proof.
  induction xs as [|y ys IH]; intros x; simpl.
  - split; [apply Qle_refl | constructor].
  - destruct (IH (qmax x y)) as [H1 H2]. split.
    + eapply Qle_trans; [apply qmax_ge_l | exact H1].
    + constructor; [eapply Qle_trans; [apply qmax_ge_r | exact H1] | exact H2].
Qed.

(** The minimum and the maximum are elements of the array. *)
Lemma fold_qmin_In xs : forall x, In (fold_left qmin xs x) (x :: xs).
Proof.
  induction xs as [|y ys IH]; intros x; simpl; [left; reflexivity|].
  destruct (IH (qmin x y)) as [H | H].
  - unfold qmin in H at 1. destruct (Qlt_le_dec y x); [right; left | left]; exact H.
  - right; right; exact H.
Qed.

Lemma fold_qmax_In xs : forall x, In (fold_left qmax xs x) (x :: xs).
Proof.
  induction xs as [|y ys IH]; intros x; simpl; [left; reflexivity|].
  destruct (IH (qmax x y)) as [H | H].
  - unfold qmax in H at 1. destruct (Qlt_le_dec x y); [right; left | left]; exact H.
  - right; right; exact H.
Qed.

Lemma amin_spec (a : raster Q) lo :
  amin a = Ret lo -> In lo (concat a) /\ Forall (fun y => (lo <= y)%Q) (concat a).
Proof.
  unfold amin. destruct (concat a) as [|x xs]; [discriminate|].
  intros [= <-]. split; [apply fold_qmin_In|].
  destruct (fold_qmin_le xs x). constructor; assumption.
Qed.

Lemma amax_spec (a : raster Q) hi :
  amax a = Ret hi -> In hi (concat a) /\ Forall (fun y => (y <= hi)%Q) (concat a).
Proof.
  unfold amax. destruct (concat a) as [|x xs]; [discriminate|].
  intros [= <-]. split; [apply fold_qmax_In|].
  destruct (fold_qmax_ge xs x). constructor; assumption.
Qed.

(** ** The cast to eight bits *)

Lemma astype_uint8_range x : (0 <= astype_uint8 x <= 255)%Z.
Proof. unfold astype_uint8. pose proof (Z.mod_pos_bound (Qnum x ÷ Z.pos (Qden x)) 256). lia. Qed.

Lemma to_uint8_range (a : raster Q) :
  Forall (Forall (fun v => (0 <= v <= 255)%Z)) (to_uint8 a).
Proof.
  unfold to_uint8. apply Forall_map, Forall_forall. intros row _.
  apply Forall_map, Forall_forall. intros x _. apply astype_uint8_range.
Qed.

Lemma to_uint8_zeros (a : raster Q) :
  Forall (Forall (fun v => v = 0%Z)) (to_uint8 (zeros_like a)).
Proof.
  unfold to_uint8, zeros_like. rewrite map_map.
  apply Forall_map, Forall_forall. intros row _. rewrite map_map.
  apply Forall_map, Forall_forall. intros x _. reflexivity.
Qed.

Lemma to_uint8_shape (a : raster Q) : map length (to_uint8 a) = map length a.
Proof.
  unfold to_uint8. rewrite map_map. apply map_ext. intros row. apply length_map.
Qed.

Lemma normalize_shape (a : raster Q) lo hi : map length (normalize a lo hi) = map length a.
Proof.
  unfold normalize, zeros_like. destruct (Qlt_le_dec lo hi);
    rewrite map_map; apply map_ext; intros row; apply length_map.
Qed.

Lemma depth_to_uint8_returns (depth_map : raster Q) :
  concat depth_map <> [] ->
  exists px lo hi, depth_to_uint8 depth_map = Ret (px, (lo, hi)).
Proof.
  intros Hne. unfold depth_to_uint8, amin, amax.
  destruct (concat depth_map) as [|x xs]; [congruence|].
  eexists; eexists; eexists; reflexivity.
Qed.

(** C1. On every non-empty raw depth array, lines 84-93 produce a raster
    (no fault, the constant case included) of the same shape, every
    pixel of which lies within [0, 255]; when the maximum equals the
    minimum, which is the case of a constant array, every pixel is 0. *)
Theorem depth_map_pixels_in_range (depth_map : raster Q) :
  concat depth_map <> [] ->
  exists px lo hi,
    depth_to_uint8 depth_map = Ret (px, (lo, hi)) /\
    map length px = map length depth_map /\
    Forall (Forall (fun v => (0 <= v <= 255)%Z)) px /\
    ((lo == hi)%Q -> Forall (Forall (fun v => v = 0%Z)) px) /\
    ((forall x y, In x (concat depth_map) -> In y (concat depth_map) -> (x == y)%Q) ->
     (lo == hi)%Q).
Proof.
  intros Hne. unfold depth_to_uint8.
  destruct (amin depth_map) as [lo|e] eqn:Emin.
  2:{ unfold amin in Emin. destruct (concat depth_map); [congruence | discriminate]. }
  destruct (amax depth_map) as [hi|e] eqn:Emax.
  2:{ unfold amax in Emax. destruct (concat depth_map); [congruence | discriminate]. }
  exists (to_uint8 (normalize depth_map lo hi)), lo, hi.
  split; [reflexivity|]. split.
  { rewrite to_uint8_shape. apply normalize_shape. }
  split; [apply to_uint8_range|]. split.
  - intros Heq. unfold normalize. destruct (Qlt_le_dec lo hi) as [Hlt|Hle].
    + rewrite Heq in Hlt. exfalso. exact (Qlt_irrefl _ Hlt).
    + apply to_uint8_zeros.
  - intros Hconst. apply amin_spec in Emin as [Hlo _]. apply amax_spec in Emax as [Hhi _].
    apply Hconst; assumption.
Qed.

Lemma depth_map_pixels_in_range_witness :
  let d : raster Q := [[1; 3]; [2; 5]]%Q in
  concat d <> [] /\
  exists px lo hi,
    depth_to_uint8 d = Ret (px, (lo, hi)) /\
    map length px = map length d /\
    Forall (Forall (fun v => (0 <= v <= 255)%Z)) px /\
    ((lo == hi)%Q -> Forall (Forall (fun v => v = 0%Z)) px) /\
    ((forall x y, In x (concat d) -> In y (concat d) -> (x == y)%Q) -> (lo == hi)%Q).
Proof.
  split; [discriminate | apply (depth_map_pixels_in_range [[1; 3]; [2; 5]]%Q); discriminate].
Defined.

Example depth_to_uint8_ramp :
  depth_to_uint8 [[1; 3]; [2; 5]]%Q = Ret ([[0; 127]; [63; 255]]%Z, (1, 5)%Q).
Proof. reflexivity. Qed.

Example depth_to_uint8_constant :
  depth_to_uint8 [[7; 7]; [7; 7]]%Q = Ret ([[0; 0]; [0; 0]]%Z, (7, 7)%Q).
Proof. reflexivity. Qed.

Example depth_to_uint8_empty :
  depth_to_uint8 [] = Raise (zero_size "minimum").
Proof. reflexivity. Qed.

End DepthNormalisation.

Section SingleImage.
Import MidasDepth.
Context `{L : MidasLib}.

(** Unfolds the monadic plumbing of a block. *)
Ltac unfold_monad :=
  unfold try_except, bind, call, ret, raise in *.

(** Reading a file leaves the process as it was. *)
Lemma cv2_imread_state p s : snd (cv2_imread p s) = s.
Proof. unfold cv2_imread. destruct (files s !! p) as [[|]|]; reflexivity. Qed.

Lemma cv2_imread_ret p s : exists o, cv2_imread p s = (Ret o, s).
Proof. unfold cv2_imread. destruct (files s !! p) as [[|]|]; eexists; reflexivity. Qed.

(** What the write leaves behind when it raises. *)
Lemma write_file_raise p c s e s' : write_file p c s = (Raise e, s') -> s' = s.
Proof.
  unfold write_file. destruct (String.eqb p ""); [intros [= _ <-]; reflexivity|].
  destruct (name_too_long p); [intros [= _ <-]; reflexivity|].
  destruct (files s !! p) as [[|]|]; try (intros [= _ <-]; reflexivity);
    (destruct (bool_decide _); [intros [= _ <-]; reflexivity | discriminate]).
Qed.

Lemma write_file_ret p c s s' :
  write_file p c s = (Ret tt, s') -> files s' !! p = Some (FileNode c).
Proof.
  unfold write_file. destruct (String.eqb p ""); [discriminate|].
  destruct (name_too_long p); [discriminate|].
  destruct (files s !! p) as [[|]|]; try discriminate;
    (destruct (bool_decide _); [discriminate|]); intros [= <-]; simpl;
    apply lookup_insert_eq.
Qed.

(** The empty directory name is always refused. *)
Lemma os_makedirs_empty s : os_makedirs "" s = (Raise (enoent ""), s).
Proof. reflexivity. Qed.

(** The guard turns whatever the body raises into an error dictionary. *)
Lemma generate_depth_map_guard input_path output_path s :
  generate_depth_map input_path output_path s =
  match generate_depth_map_body input_path output_path s with
  | (Ret d, s') => (Ret d, s')
  | (Raise e, s') => (Ret (DepthError ("Depth map generation failed: " ++ exn_str e)), s')
  end.
Proof. reflexivity. Qed.

(** C5. [generate_depth_map] returns a dictionary on every input and in
    every state; it never lets an exception through.  Whatever the body
    raises (a model error, a resize or normalisation error, a write
    error) comes back as an error dictionary carrying the exception's
    message, and an image that cannot be read as one naming the path. *)
Theorem generate_depth_map_never_raises (input_path output_path : string) (s : proc) :
  (exists d s', generate_depth_map input_path output_path s = (Ret d, s')) /\
  (forall e s', generate_depth_map_body input_path output_path s = (Raise e, s') ->
     generate_depth_map input_path output_path s =
     (Ret (DepthError ("Depth map generation failed: " ++ exn_str e)), s')) /\
  (cv2_imread input_path s = (Ret None, s) ->
     generate_depth_map input_path output_path s =
     (Ret (DepthError ("Could not load image: " ++ input_path)), s)).
Proof.
  split; [|split].
  - rewrite generate_depth_map_guard.
    destruct (generate_depth_map_body input_path output_path s) as [[d|e] s'];
      eexists; eexists; reflexivity.
  - intros e s' Hb. rewrite generate_depth_map_guard, Hb. reflexivity.
  - intros Hr. rewrite generate_depth_map_guard.
    unfold generate_depth_map_body, bind. rewrite Hr. reflexivity.
Qed.

(** Every stage failure ends in the error dictionary with its message. *)
Lemma stage_failure_reported input_path output_path s e :
  stage_failure input_path output_path s e ->
  exists s', generate_depth_map input_path output_path s =
             (Ret (DepthError ("Depth map generation failed: " ++ exn_str e)), s').
Proof.
  intros Hf. rewrite generate_depth_map_guard.
  unfold generate_depth_map_body, cv2_imread. unfold_monad.
  destruct Hf; try destruct rg;
    repeat first [ progress simpl
                 | match goal with H : _ = _ |- _ => rewrite H end ];
    eexists; reflexivity.
Qed.

(** A success went through every stage: the file at the output path
    holds the image made of the raster lines 84-93 computed from the
    resized prediction. *)
Lemma generate_depth_map_success input_path output_path s i o rg m s' :
  generate_depth_map input_path output_path s = (Ret (DepthSuccess i o rg m), s') ->
  exists c img t pr d px im lo hi,
    files s !! input_path = Some (FileNode c) /\ imdecode c = Some img /\
    dpt_transform (cvtColor_BGR2RGB img) = Ret t /\
    midas_model t = Ret pr /\
    interpolate_bicubic pr (shape (cvtColor_BGR2RGB img)) = Ret d /\
    depth_to_uint8 d = Ret (px, (lo, hi)) /\
    fromarray_L (squeeze px) = Ret im /\
    rg = Some (lo, hi) /\ i = input_path /\ o = output_path /\
    files s' !! output_path = Some (FileNode (GrayPNG im)).
Proof.
  rewrite generate_depth_map_guard.
  unfold generate_depth_map_body, cv2_imread. unfold_monad.
  destruct (files s !! input_path) as [[names|c]|] eqn:Ef; try discriminate.
  destruct (imdecode c) as [img|] eqn:Ei; try discriminate.
  destruct (dpt_transform _) as [t|e] eqn:Et; try discriminate.
  destruct (midas_model t) as [pr|e] eqn:Em; try discriminate.
  destruct (interpolate_bicubic pr _) as [d|e] eqn:Ed; try discriminate.
  destruct (depth_to_uint8 d) as [[px [lo hi]]|e] eqn:En; try discriminate.
  destruct (os_makedirs _ s) as [[[]|e] s1] eqn:Emk; try discriminate.
  destruct (fromarray_L (squeeze px)) as [im|e] eqn:Ea; try discriminate.
  destruct (write_file _ _ s1) as [[[]|e] s2] eqn:Ew; try discriminate.
  intros [= <- <- <- <- <-].
  exists c, img, t, pr, d, px, im, lo, hi. repeat split; try assumption.
  eapply write_file_ret; exact Ew.
Qed.

End SingleImage.

Section Batch.
Import MidasDepth.
Context `{L : MidasLib}.

Lemma generate_depth_map_returns input_path output_path s :
  exists d s', generate_depth_map input_path output_path s = (Ret d, s').
Proof.
  rewrite generate_depth_map_guard.
  destruct (generate_depth_map_body input_path output_path s) as [[d|e] s'];
    eexists; eexists; reflexivity.
Qed.

(** The loop runs to its end and appends one entry per file, in order. *)
Lemma batch_loop input_dir output_dir image_files : forall s,
  exists results s',
    for_append (batch_step input_dir output_dir) image_files s = (Ret results, s') /\
    map file results = map name image_files.
Proof.
  induction image_files as [|f fs IH]; intros s; simpl.
  - exists [], s. split; reflexivity.
  - unfold bind at 1. unfold batch_step at 1. unfold bind at 1.
    destruct (generate_depth_map_returns (joinpath input_dir f)
                (joinpath output_dir ("depth_" ++ stem f ++ ".png")) s) as (d & s1 & E).
    rewrite E. unfold ret at 1. unfold bind at 1.
    destruct (IH s1) as (rs & s2 & E2 & Hm). rewrite E2.
    eexists; eexists. split; [reflexivity|]. simpl. rewrite Hm. reflexivity.
Qed.

(** [process_batch] on a directory with at least one recognised entry. *)
Lemma process_batch_paths_report input_dir input_path output_path s entries :
  files s !! input_path = Some (DirNode entries) ->
  List.filter is_image_file entries <> [] ->
  exists results s',
    process_batch_paths input_dir input_path output_path s =
      (Ret (BatchReport results (length results)
              (length (List.filter (fun r => get_success (result r)) results))), s') /\
    map file results = map name (List.filter is_image_file entries).
Proof.
  intros Hd Hne. unfold process_batch_paths, path_exists, iterdir.
  unfold bind at 1. rewrite Hd. simpl.
  unfold bind at 1. rewrite Hd.
  destruct (List.filter is_image_file entries) as [|f fs] eqn:Ef; [congruence|].
  unfold bind at 1.
  destruct (batch_loop input_path output_path (f :: fs) s) as (rs & s' & E & Hm).
  rewrite E.
  exists rs, s'. split; [reflexivity | exact Hm].
Qed.

Lemma process_batch_report input_dir output_dir s entries :
  files s !! input_dir = Some (DirNode entries) ->
  List.filter is_image_file entries <> [] ->
  exists results s',
    process_batch input_dir output_dir s =
      (Ret (BatchReport results (length results)
              (length (List.filter (fun r => get_success (result r)) results))), s') /\
    map file results = map name (List.filter is_image_file entries).
Proof. apply process_batch_paths_report. Qed.


Lemma process_batch_paths_no_images input_dir input_path output_path s entries :
  files s !! input_path = Some (DirNode entries) ->
  List.filter is_image_file entries = [] ->
  process_batch_paths input_dir input_path output_path s =
    (Ret (BatchError "No image files found in input directory"), s).
Proof.
  intros Hd Hn. unfold process_batch_paths, path_exists, iterdir.
  unfold bind at 1. rewrite Hd. simpl.
  unfold bind at 1. rewrite Hd, Hn. reflexivity.
Qed.

Lemma process_batch_no_images input_dir output_dir s entries :
  files s !! input_dir = Some (DirNode entries) ->
  List.filter is_image_file entries = [] ->
  process_batch input_dir output_dir s =
    (Ret (BatchError "No image files found in input directory"), s).
Proof. apply process_batch_paths_no_images. Qed.




(** C3, amended. On a directory with N >= 1 recognised entries and M
    others, [process_batch] returns a report with exactly N entries in
    [batch_results], one per recognised entry and in the order of the
    listing, the others being skipped; [total_processed] is N and
    [success_count] is the number of entries whose result is a success. *)
Theorem process_batch_one_entry_per_image input_dir output_dir s entries :
  files s !! input_dir = Some (DirNode entries) ->
  1 <= length (List.filter is_image_file entries) ->
  exists results total success_count s',
    process_batch input_dir output_dir s =
      (Ret (BatchReport results total success_count), s') /\
    length results = length (List.filter is_image_file entries) /\
    length results + length (List.filter (fun f => negb (is_image_file f)) entries)
      = length entries /\
    map file results = map name (List.filter is_image_file entries) /\
    total = length results /\
    success_count = length (List.filter (fun r => get_success (result r)) results).
Proof.
  intros Hd HN.
  destruct (process_batch_report input_dir output_dir s entries Hd) as (rs & s' & E & Hm).
  { intros Hnil. rewrite Hnil in HN. simpl in HN. lia. }
  exists rs, (length rs), (length (List.filter (fun r => get_success (result r)) rs)), s'.
  assert (Hlen : length rs = length (List.filter is_image_file entries)).
  { rewrite <- (length_map file rs), Hm. apply length_map. }
  split; [exact E|]. split; [exact Hlen|]. split.
  { rewrite Hlen. clear. induction entries as [|f fs IH]; simpl; [reflexivity|].
    destruct (is_image_file f); simpl; lia. }
  repeat split; assumption.
Qed.


End Batch.

Section BatchExamples.
Import MidasDepth.

Example recognised_extensions :
  map is_image_file ["a.png"; "B.JPG"; "c.Jpeg"; "d.bmp"; "e.TIFF"; "f.tif"; "g.gif";
                     "notes.txt"; ".png"; "png"; "archive.png.zip"]
  = [true; true; true; true; true; false; false; false; false; false; false].
Proof. vm_compute. reflexivity. Qed.

Lemma process_batch_one_entry_per_image_witness :
  let entries := ["a.png"; "notes.txt"; "B.JPG"; "broken.bmp"] in
  files Demo.start !! "charts" = Some (DirNode entries) /\
  1 <= length (List.filter is_image_file entries) /\
  exists results total success_count s',
    process_batch (L := Demo.lib true) "charts" "out" Demo.start =
      (Ret (BatchReport results total success_count), s') /\
    length results = length (List.filter is_image_file entries) /\
    length results + length (List.filter (fun f => negb (is_image_file f)) entries)
      = length entries /\
    map file results = map name (List.filter is_image_file entries) /\
    total = length results /\
    success_count = length (List.filter (fun r => get_success (result r)) results).
Proof.
  assert (Hd : files Demo.start !! "charts"
               = Some (DirNode ["a.png"; "notes.txt"; "B.JPG"; "broken.bmp"]))
    by (vm_compute; reflexivity).
  assert (HN : 1 <= length (List.filter is_image_file
                              ["a.png"; "notes.txt"; "B.JPG"; "broken.bmp"]))
    by (vm_compute; lia).
  split; [exact Hd|]. split; [exact HN|].
  exact (process_batch_one_entry_per_image (L := Demo.lib true)
           "charts" "out" Demo.start _ Hd HN).
Defined.

(** The run of the witness: three entries for the three recognised
    files, two of them successes, the undecodable one an error.  The
    images have one row, so the depth maps are written as columns. *)
Example process_batch_charts :
  exists s',
    process_batch (L := Demo.lib true) "charts" "out" Demo.start =
    (Ret (BatchReport
            [ {| file := "a.png";
                 result := DepthSuccess "charts/a.png" "out/depth_a.png"
                             (Some (291, 297)%Q) "MiDaS DPT-Hybrid" |};
              {| file := "B.JPG";
                 result := DepthSuccess "charts/B.JPG" "out/depth_B.png"
                             (Some (366, 366)%Q) "MiDaS DPT-Hybrid" |};
              {| file := "broken.bmp";
                 result := DepthError "Could not load image: charts/broken.bmp" |} ]
            3 2), s') /\
    files s' !! "out/depth_a.png" = Some (FileNode (GrayPNG [[0]; [127]; [255]]%Z)) /\
    files s' !! "out/depth_B.png" = Some (FileNode (GrayPNG [[0]; [0]]%Z)).
Proof. eexists. split; [vm_compute; reflexivity | split; vm_compute; reflexivity]. Qed.

(** The claim as first stated, with N = 0: the directory [docs] holds no
    recognised entry and one may expect a report with no entries, but
    no report comes back at all. *)
Lemma process_batch_no_report_for_zero_images :
  files Demo.start !! "docs" = Some (DirNode ["readme.md"; ".png"]) /\
  length (List.filter is_image_file ["readme.md"; ".png"]) = 0 /\
  ~ exists results total success_count s',
      process_batch (L := Demo.lib true) "docs" "out" Demo.start =
        (Ret (BatchReport results total success_count), s') /\
      length results = 0 /\
      success_count = length (List.filter (fun r => get_success (result r)) results).
Proof.
  split; [vm_compute; reflexivity|]. split; [vm_compute; reflexivity|].
  intros (rs & t & sc & s' & E & _).
  assert (Hd : files Demo.start !! "docs" = Some (DirNode ["readme.md"; ".png"]))
    by (vm_compute; reflexivity).
  rewrite (process_batch_no_images (L := Demo.lib true) "docs" "out" Demo.start _ Hd) in E
    by (vm_compute; reflexivity).
  discriminate.
Qed.



End BatchExamples.

Section CommandLine.
Import MidasDepth.
Context `{L : MidasLib}.

(** C10. Started without its model dependencies and given [--batch],
    the tool prints the error "Batch mode not supported in fallback
    mode", touches no file and prints nothing else; without [--batch]
    the same start runs the single-image fallback and prints its
    result. *)
Theorem main_batch_in_fallback (a : args) (s : proc) :
  DEPENDENCIES_AVAILABLE = false ->
  (batch a = true ->
   main a s = (Ret 0%Z,
               printed s (JsonDepth (DepthError "Batch mode not supported in fallback mode")))) /\
  (batch a = false ->
   exists r s',
     create_fallback_depth_map (input a) (or_else (output a) (default_output (input a))) s
       = (Ret r, s') /\
     main a s = (Ret 0%Z, printed s' (JsonDepth r))).
Proof.
  intros Hdeps. split; intros Hb.
  - unfold main, try_except, bind. rewrite Hdeps, Hb. reflexivity.
  - unfold main. unfold try_except at 1. unfold bind at 1. rewrite Hdeps, Hb.
    unfold bind at 1.
    destruct (create_fallback_depth_map (input a)
                (or_else (output a) (default_output (input a))) s) as [[r|e] s'] eqn:E.
    + exists r, s'. split; reflexivity.
    + exfalso. unfold create_fallback_depth_map, try_except in E.
      destruct (bind _ _ s) as [[r'|e'] s1]; discriminate.
Qed.

(** An output path without a directory part: [os.path.dirname] gives
    [''], [os.makedirs] refuses it, and nothing is written. *)
Lemma generate_depth_map_no_directory input_path output_path s :
  dirname output_path = "" ->
  exists msg, generate_depth_map input_path output_path s = (Ret (DepthError msg), s).
Proof.
  intros Hdir. rewrite generate_depth_map_guard.
  unfold generate_depth_map_body, cv2_imread, bind, call, ret.
  destruct (files s !! input_path) as [[names|c]|]; try (eexists; reflexivity).
  destruct (imdecode c) as [img|]; [|eexists; reflexivity].
  destruct (dpt_transform _) as [t|e]; [|eexists; reflexivity].
  destruct (midas_model t) as [pr|e]; [|eexists; reflexivity].
  destruct (interpolate_bicubic pr _) as [d|e]; [|eexists; reflexivity].
  destruct (depth_to_uint8 d) as [[px [lo hi]]|e]; [|eexists; reflexivity].
  rewrite Hdir, os_makedirs_empty. eexists; reflexivity.
Qed.

Lemma create_fallback_no_directory input_path output_path s :
  dirname output_path = "" ->
  exists msg, create_fallback_depth_map input_path output_path s = (Ret (DepthError msg), s).
Proof.
  intros Hdir. unfold create_fallback_depth_map, cv2_imread_gray, try_except, bind, call, ret.
  destruct import_cv2_pil as [[]|e]; [|eexists; reflexivity].
  destruct (files s !! input_path) as [[names|c]|]; try (eexists; reflexivity).
  destruct (imdecode_gray c) as [img|]; [|eexists; reflexivity].
  destruct (canny img 50 150) as [ed|e]; [|eexists; reflexivity].
  destruct (gaussian_blur _ 15) as [bl|e]; [|eexists; reflexivity].
  rewrite Hdir, os_makedirs_empty. eexists; reflexivity.
Qed.

(** With every library stage succeeding on a decodable image, the error
    is the one [os.makedirs('')] raises. *)
Lemma generate_depth_map_bare_name input_path output_path s c img t pr d :
  dirname output_path = "" ->
  files s !! input_path = Some (FileNode c) -> imdecode c = Some img ->
  dpt_transform (cvtColor_BGR2RGB img) = Ret t ->
  midas_model t = Ret pr ->
  interpolate_bicubic pr (shape (cvtColor_BGR2RGB img)) = Ret d ->
  concat d <> [] ->
  generate_depth_map input_path output_path s =
  (Ret (DepthError "Depth map generation failed: [Errno 2] No such file or directory: ''"), s).
Proof.
  intros Hdir Hf Hi Ht Hm Hd Hne.
  destruct (depth_to_uint8_returns d Hne) as (px & lo & hi & En).
  rewrite generate_depth_map_guard.
  unfold generate_depth_map_body, cv2_imread, bind, call, ret.
  rewrite Hf, Hi, Ht, Hm, Hd, En, Hdir, os_makedirs_empty. reflexivity.
Qed.

(** What [__init__] does to the process. *)
Lemma init_generator_files s :
  exists o s', init_generator s = (o, s') /\ files s' = files s.
Proof.
  unfold init_generator. destruct DEPENDENCIES_AVAILABLE; simpl.
  - unfold bind, try_except, call, print, raise. simpl.
    destruct cuda_is_available as [cuda|e]; [|eexists; eexists; split; reflexivity].
    destruct hub_load as [[]|e]; eexists; eexists; split; reflexivity.
  - eexists; eexists; split; reflexivity.
Qed.

(** C9, on the code. [--input chart.png --output depth.png] in
    single-image mode: whatever the image and whichever mode the tool
    is in, the run ends by printing an error dictionary and the files
    are as they were; no [depth.png] is written. *)
Theorem main_bare_output_writes_nothing (s : proc) :
  exists status msg s',
    main {| input := "chart.png"; output := Some "depth.png"; batch := false |} s
      = (Ret status, s') /\
    files s' = files s /\
    last (stdout s') = Some (JsonDepth (DepthError msg)).
Proof.
  unfold main. unfold try_except at 1. unfold bind at 1. simpl.
  destruct DEPENDENCIES_AVAILABLE.
  - unfold bind at 1. unfold bind at 1.
    destruct (init_generator_files s) as (o & s1 & Ei & Hfs). rewrite Ei.
    destruct o as [[]|e].
    + unfold bind at 1.
      destruct (generate_depth_map_no_directory "chart.png" "depth.png" s1 eq_refl)
        as (msg & E).
      rewrite E. unfold ret at 1. unfold bind at 1, print at 1, ret.
      eexists; exists msg; eexists. split; [reflexivity|]. simpl.
      split; [exact Hfs | apply last_snoc].
    + unfold bind, print, ret. eexists; eexists; eexists.
      split; [reflexivity|]. simpl. split; [exact Hfs | apply last_snoc].
  - unfold bind at 1. unfold bind at 1.
    destruct (create_fallback_no_directory "chart.png" "depth.png" s eq_refl) as (msg & E).
    rewrite E. unfold ret at 1. unfold bind at 1, print at 1, ret.
    eexists; exists msg; eexists. split; [reflexivity|]. simpl.
    split; [reflexivity | apply last_snoc].
Qed.

End CommandLine.

(* ===================================================================== *)
(** * Properties of the embedding tool *)
(* ===================================================================== *)

Section Strings.

Lemma startswith_spec (p : string) : forall s,
  startswith s p = true <-> exists rest, s = p ++ rest.
Proof.
  induction p as [|c p IH]; intros s; simpl.
  - split; [intros _; exists s; reflexivity | destruct s; reflexivity].
  - destruct s as [|d s]; simpl.
    + split; [discriminate | intros [rest H]; discriminate].
    + destruct (Ascii.eqb_spec c d) as [->|Hne].
      * rewrite IH. split; intros [rest H]; exists rest; [rewrite H | injection H as H]; auto.
      * split; [discriminate | intros [rest H]; injection H as H1 H2; congruence].
Qed.

(** [split(sep, 1)] cuts at the first separator. *)
Lemma split1_first (sep : ascii) (header encoded : string) :
  ~ In sep (list_ascii_of_string header) ->
  split1 sep (header ++ String sep encoded) = [header; encoded].
Proof.
  induction header as [|c h IH]; simpl; intros Hno.
  - rewrite Ascii.eqb_refl. reflexivity.
  - destruct (Ascii.eqb_spec c sep) as [->|Hne]; [exfalso; apply Hno; left; reflexivity|].
    rewrite IH by (intros Hin; apply Hno; right; exact Hin). reflexivity.
Qed.

Lemma split1_none (sep : ascii) (s : string) :
  ~ In sep (list_ascii_of_string s) -> split1 sep s = [s].
Proof.
  induction s as [|c s IH]; simpl; intros Hno; [reflexivity|].
  destruct (Ascii.eqb_spec c sep) as [->|Hne]; [exfalso; apply Hno; left; reflexivity|].
  rewrite IH by (intros Hin; apply Hno; right; exact Hin). reflexivity.
Qed.

End Strings.

Section InputDispatch.
Import OpenclipEmbeddings.
Context {F : Type} `{L : ClipLib F}.

Lemma startswith_false p s : ~ has_prefix p s -> startswith s p = false.
Proof.
  intros H. destruct (startswith s p) eqn:E; [|reflexivity].
  exfalso. apply H. apply startswith_spec. exact E.
Qed.

Lemma load_image_dispatch_path (s : string) :
  has_prefix "/" s \/ has_prefix "./" s -> load_image s = open_path s.
Proof.
  intros Hp. unfold load_image.
  assert (Hd : startswith s "data:image" = false).
  { apply startswith_false. intros [r1 H1].
    destruct Hp as [[r2 H2] | [r2 H2]]; rewrite H2 in H1; discriminate. }
  rewrite Hd.
  destruct Hp as [Hp | Hp]; apply startswith_spec in Hp; rewrite Hp;
    [reflexivity | rewrite orb_true_r; reflexivity].
Qed.

(** C6. How [generate_embedding] reads its argument: with the prefix
    [data:image] the text after the first comma is decoded as base64
    (and without a comma the unpacking fails); with a leading [/] or
    [./] the argument is opened as a path; anything else, a path such as
    [chart.png] included, is decoded as base64. *)
Theorem load_image_dispatch (s : string) :
  (has_prefix "data:image" s ->
   forall header encoded,
     s = header ++ "," ++ encoded -> ~ In ","%char (list_ascii_of_string header) ->
     load_image s = open_base64 encoded) /\
  (has_prefix "data:image" s -> ~ In ","%char (list_ascii_of_string s) ->
   load_image s = Raise (Exn "ValueError" "not enough values to unpack (expected 2, got 1)")) /\
  (has_prefix "/" s \/ has_prefix "./" s -> load_image s = open_path s) /\
  (~ has_prefix "data:image" s -> ~ has_prefix "/" s -> ~ has_prefix "./" s ->
   load_image s = open_base64 s).
Proof.
  unfold load_image. repeat split.
  - intros Hp header encoded -> Hno.
    apply startswith_spec in Hp. rewrite Hp.
    change (header ++ "," ++ encoded) with (header ++ String ","%char encoded).
    rewrite split1_first by exact Hno. reflexivity.
  - intros Hp Hno. apply startswith_spec in Hp. rewrite Hp.
    rewrite split1_none by exact Hno. reflexivity.
  - intros Hp. fold (load_image s). apply load_image_dispatch_path. exact Hp.
  - intros H1 H2 H3.
    rewrite (startswith_false _ _ H1), (startswith_false _ _ H2), (startswith_false _ _ H3).
    reflexivity.
Qed.

(** Paths without a leading marker go down the base64 branch. *)
Example unmarked_paths_are_base64 :
  load_image "chart.png" = open_base64 "chart.png" /\
  load_image "charts/a.png" = open_base64 "charts/a.png" /\
  load_image "../a.png" = open_base64 "../a.png" /\
  load_image "~/a.png" = open_base64 "~/a.png" /\
  load_image "./a.png" = open_path "./a.png" /\
  load_image "/tmp/a.png" = open_path "/tmp/a.png" /\
  load_image "data:image/png;base64,iVBORw0KGgo=" = open_base64 "iVBORw0KGgo=" /\
  load_image "data:image/png;base64,iVBOR,w0KGgo=" = open_base64 "iVBOR,w0KGgo=".
Proof. repeat split; reflexivity. Qed.

End InputDispatch.

Section FallbackDeterminism.
Import OpenclipEmbeddings.
Context {F : Type} `{A : FloatOps F} `{L : ClipLib F}.

(** Seeding replaces the generator state: what is drawn after it owes
    nothing to the state before. *)
Lemma seed_then_normal (seed : Z) (n : nat) (st : proc) :
  fst (bind (np_random_seed seed) (fun _ => np_random_normal n) st) =
  if ((0 <=? seed) && (seed <? 2 ^ 32))%Z
  then Ret (fst (draws n (mt_seed seed)))
  else Raise (Exn "ValueError" "Seed must be between 0 and 2**32 - 1").
Proof.
  unfold bind, np_random_seed, np_random_normal.
  destruct ((0 <=? seed) && (seed <? 2 ^ 32))%Z; simpl; [|reflexivity].
  destruct (draws n (mt_seed seed)) as [xs st']. reflexivity.
Qed.

(** The fallback vector computed from the bytes of the resized image. *)
Lemma fallback_embedding_value (image : rgb_image) (st : proc) :
  fst (fallback_embedding image st) =
  match resize_224 image with
  | Raise e => Raise e
  | Ret small =>
      match int16 (take 8 (md5_hexdigest (tobytes small))) with
      | Raise e => Raise e
      | Ret seed =>
          if ((0 <=? seed) && (seed <? 2 ^ 32))%Z
          then Ret (EmbOk (normalized (fst (draws 1024 (mt_seed seed)))) 1024
                          "Fallback 1024D (install open-clip-torch for real OpenCLIP)")
          else Raise (Exn "ValueError" "Seed must be between 0 and 2**32 - 1")
      end
  end.
Proof.
  unfold fallback_embedding, bind, call, np_random_seed, np_random_normal, ret.
  generalize 1024%nat. intros n.
  destruct (resize_224 image) as [small|e]; [|reflexivity].
  destruct (int16 _) as [seed|e]; [|reflexivity].
  destruct ((0 <=? seed) && (seed <? 2 ^ 32))%Z; simpl; [|reflexivity].
  destruct (draws n (mt_seed seed)) as [xs st']. reflexivity.
Qed.

Lemma generate_embedding_fallback_value (s : string) (image : rgb_image) (st : proc) :
  load_image s = Ret image ->
  fst (generate_embedding true s st) =
  match fst (fallback_embedding image st) with
  | Ret r => Ret r
  | Raise e => Ret (EmbError ("Failed to generate embedding: " ++ exn_str e))
  end.
Proof.
  intros Hl. unfold generate_embedding, try_except, bind, call. rewrite Hl. simpl.
  destruct (fallback_embedding image st) as [[r|e] st']; reflexivity.
Qed.

(** C7. In fallback mode two invocations that decode to the same image
    return the same dictionary, vector included, whatever the argument
    form and whatever state the generator and the process were in. *)
Theorem fallback_embedding_deterministic
    (s1 s2 : string) (st1 st2 : proc) (image : rgb_image) :
  load_image s1 = Ret image -> load_image s2 = Ret image ->
  fst (generate_embedding true s1 st1) = fst (generate_embedding true s2 st2).
Proof.
  intros H1 H2.
  rewrite (generate_embedding_fallback_value s1 image st1 H1).
  rewrite (generate_embedding_fallback_value s2 image st2 H2).
  rewrite !fallback_embedding_value. reflexivity.
Qed.

(** The vector is a function of the bytes of the resized pixels alone. *)
Lemma fallback_embedding_by_content (image1 image2 small1 small2 : rgb_image) (st1 st2 : proc) :
  resize_224 image1 = Ret small1 -> resize_224 image2 = Ret small2 ->
  tobytes small1 = tobytes small2 ->
  fst (fallback_embedding image1 st1) = fst (fallback_embedding image2 st2).
Proof.
  intros H1 H2 Hb. rewrite !fallback_embedding_value, H1, H2, Hb. reflexivity.
Qed.

(** The first eight hexadecimal digits of a digest always make a seed
    [np.random.seed] accepts. *)
Lemma int16_acc_bound (s : string) : forall acc n,
  int16_acc acc s = Some n ->
  (0 <= acc)%Z -> (0 <= n < (acc + 1) * 16 ^ Z.of_nat (String.length s))%Z.
Proof.
  induction s as [|c s IH]; simpl; intros acc n H Hacc.
  - injection H as <-. lia.
  - destruct (hex_digit c) as [d|] eqn:Ed; [|discriminate].
    assert (Hd : (0 <= d < 16)%Z).
    { unfold hex_digit in Ed.
      repeat match type of Ed with
             | (if ?b then _ else _) = _ => destruct b eqn:?; [injection Ed as <-|]
             end; try discriminate;
        repeat match goal with
               | H : (_ && _) = true |- _ => apply andb_prop in H as [? ?]
               | H : (_ <=? _)%nat = true |- _ => apply Nat.leb_le in H
               end; lia. }
    specialize (IH _ _ H ltac:(lia)).
    rewrite Nat2Z.inj_succ, Z.pow_succ_r by lia.
    split; [lia|]. destruct IH as [_ IH]. nia.
Qed.

Lemma seed_in_range (h : string) (seed : Z) :
  int16 (take 8 h) = Ret seed -> ((0 <=? seed) && (seed <? 2 ^ 32))%Z = true.
Proof.
  unfold int16. destruct (take 8 h) eqn:Et; [discriminate|]. rewrite <- Et.
  destruct (int16_acc 0 (take 8 h)) as [n|] eqn:E; [|discriminate].
  intros [= <-]. apply int16_acc_bound in E; [|lia].
  assert (Hlen : (String.length (take 8 h) <= 8)%nat).
  { clear. generalize 8%nat. induction h as [|c h IH]; intros [|k]; simpl; try lia.
    specialize (IH k). lia. }
  assert (Hpow : (16 ^ Z.of_nat (String.length (take 8 h)) <= 16 ^ 8)%Z)
    by (apply Z.pow_le_mono_r; lia).
  apply andb_true_intro. split; [apply Z.leb_le | apply Z.ltb_lt]; lia.
Qed.

End FallbackDeterminism.

Section UnitNorm.
Import OpenclipEmbeddings.
Local Open Scope R_scope.

Lemma sum_squares_nonneg (v : list R) : 0 <= sum_squares v.
Proof.
  induction v as [|x v IH]; simpl; [lra|].
  pose proof (Rle_0_sqr x) as Hx. unfold Rsqr in Hx. lra.
Qed.

Lemma sum_squares_scaled (v : list R) (n : R) :
  sum_squares (map (fun x => x / n) v) = sum_squares v * (/ n * / n).
Proof.
  induction v as [|x v IH]; simpl; [ring|]. rewrite IH. unfold Rdiv. ring.
Qed.

(** A vector divided by its norm has norm one, unless it is zero. *)
Lemma l2_norm_normalized (v : list R) :
  sum_squares v <> 0 -> l2_norm (normalized v) = 1.
Proof.
  intros Hnz. unfold normalized. cbn [fnorm fdiv RealOps].
  unfold l2_norm at 1. rewrite sum_squares_scaled.
  pose proof (sum_squares_nonneg v) as H0.
  assert (Hs : sqrt (sum_squares v) * sqrt (sum_squares v) = sum_squares v)
    by (apply sqrt_sqrt; exact H0).
  assert (Hn : l2_norm v <> 0).
  { unfold l2_norm. intros Hz. apply Hnz. apply sqrt_eq_0; assumption. }
  replace (sum_squares v * (/ l2_norm v * / l2_norm v)) with 1.
  - apply sqrt_1.
  - unfold l2_norm in *. rewrite <- Hs at 1. field. exact Hn.
Qed.

Lemma normalized_length {F} `{FloatOps F} (v : list F) : length (normalized v) = length v.
Proof. unfold normalized. apply length_map. Qed.

Lemma draws_length {F} `{ClipLib F} (n : nat) : forall st, length (fst (draws n st)) = n.
Proof.
  induction n as [|n IH]; intros st; simpl; [reflexivity|].
  destruct (gauss st) as [x st1]. specialize (IH st1).
  destruct (draws n st1) as [xs st2]. simpl in *. f_equal. exact IH.
Qed.

(** Whatever the number type, the fallback vector has 1024 elements,
    and the real-model vector as many as the network returned. *)
Lemma fallback_embedding_size {F} `{A : FloatOps F} `{L : ClipLib F}
    (s : string) (st st' : proc) (embedding : list F) (dimensions : nat) (model : string) :
  generate_embedding true s st = (Ret (EmbOk embedding dimensions model), st') ->
  length embedding = 1024%nat /\ dimensions = 1024%nat.
Proof.
  intros E.
  assert (Ef : fst (generate_embedding true s st) = Ret (EmbOk embedding dimensions model))
    by (rewrite E; reflexivity).
  clear E. destruct (load_image s) as [image|e] eqn:El.
  2:{ unfold generate_embedding, try_except, bind, call in Ef. rewrite El in Ef.
      simpl in Ef. discriminate. }
  rewrite (generate_embedding_fallback_value s image st El) in Ef.
  rewrite fallback_embedding_value in Ef.
  destruct (resize_224 image) as [small|e]; [|discriminate].
  destruct (int16 _) as [seed|e]; [|discriminate].
  destruct ((0 <=? seed) && (seed <? 2 ^ 32))%Z; [|discriminate].
  pose proof (draws_length 1024 (mt_seed seed)) as Hl.
  set (xs := fst (draws 1024 (mt_seed seed))) in *. clearbody xs.
  injection Ef as <- <- <-.
  split; [rewrite normalized_length; exact Hl | reflexivity].
Qed.

Lemma real_embedding_size {F} `{A : FloatOps F} `{L : ClipLib F}
    (s : string) (st st' : proc) (embedding : list F) (dimensions : nat) (model : string) :
  generate_embedding false s st = (Ret (EmbOk embedding dimensions model), st') ->
  exists image t features,
    load_image s = Ret image /\ preprocess image = Ret t /\
    encode_image t = Ret features /\
    embedding = normalized features /\ dimensions = length features.
Proof.
  intros E.
  unfold generate_embedding, real_embedding, try_except, bind, call, ret in E.
  destruct (load_image s) as [image|e]; simpl in E; [|discriminate E].
  destruct (preprocess image) as [t|e] eqn:Et; simpl in E; [|discriminate E].
  destruct (encode_image t) as [v|e] eqn:Ev; simpl in E; [|discriminate E].
  injection E as <- <- <- <-.
  exists image, t, v. rewrite normalized_length. repeat split; assumption.
Qed.

(** Over the reals, with a network that yields 1024 features and with
    neither the network nor the sampler yielding the zero vector: an
    embedding that [generate_embedding] returns, in real-model or in
    fallback mode, has exactly 1024 elements, reports 1024 dimensions,
    and has Euclidean norm 1. *)
Lemma returned_embedding_unit_norm `{L : ClipLib R}
    (fallback : bool) (s : string) (st st' : proc)
    (embedding : list R) (dimensions : nat) (model : string) :
  model_dimension 1024 -> never_zero ->
  generate_embedding fallback s st = (Ret (EmbOk embedding dimensions model), st') ->
  length embedding = 1024%nat /\ dimensions = 1024%nat /\ l2_norm embedding = 1.
Proof.
  intros Hdim [Hnz_model Hnz_rng] E.
  assert (Ef : fst (generate_embedding fallback s st)
               = Ret (EmbOk embedding dimensions model)) by (rewrite E; reflexivity).
  clear E. destruct fallback.
  - destruct (load_image s) as [image|e] eqn:El.
    2:{ unfold generate_embedding, try_except, bind, call in Ef. rewrite El in Ef.
        simpl in Ef. discriminate. }
    rewrite (generate_embedding_fallback_value s image st El) in Ef.
    rewrite fallback_embedding_value in Ef.
    destruct (resize_224 image) as [small|e]; [|discriminate].
    destruct (int16 _) as [seed|e]; [|discriminate].
    destruct ((0 <=? seed) && (seed <? 2 ^ 32))%Z; [|discriminate].
    pose proof (Hnz_rng seed) as Hz.
    pose proof (draws_length 1024 (mt_seed seed)) as Hl.
    set (xs := fst (draws 1024 (mt_seed seed))) in *. clearbody xs.
    injection Ef as <- <- <-.
    split; [rewrite normalized_length; exact Hl|].
    split; [reflexivity | apply l2_norm_normalized, Hz].
  - unfold generate_embedding, real_embedding, try_except, bind, call, ret in Ef.
    destruct (load_image s) as [image|e]; simpl in Ef; [|discriminate Ef].
    destruct (preprocess image) as [t|e]; simpl in Ef; [|discriminate Ef].
    destruct (encode_image t) as [v|e] eqn:Ev; simpl in Ef; [|discriminate Ef].
    injection Ef as <- <- <-.
    rewrite normalized_length.
    split; [eapply Hdim; exact Ev|]. split; [eapply Hdim; exact Ev|].
    apply l2_norm_normalized. eapply Hnz_model; exact Ev.
Qed.

End UnitNorm.

Section EmbeddingCommandLine.
Import OpenclipEmbeddings.
Context {F : Type} `{A : FloatOps F} `{L : ClipLib F}.

(** The guard of [generate_embedding] lets nothing through. *)
Lemma generate_embedding_returns (fallback : bool) (s : string) (st : proc) :
  exists r st', generate_embedding fallback s st = (Ret r, st').
Proof.
  unfold generate_embedding, try_except.
  destruct (bind _ _ st) as [[r|e] st']; eexists; eexists; reflexivity.
Qed.

Lemma generate_embedding_load_error (fallback : bool) (s : string) (st : proc) (e : exn) :
  load_image s = Raise e ->
  generate_embedding fallback s st =
  (Ret (EmbError ("Failed to generate embedding: " ++ exn_str e)), st).
Proof.
  intros Hl. unfold generate_embedding, try_except, bind, call. rewrite Hl. reflexivity.
Qed.

(** A path that cannot be opened, and a payload that cannot be decoded
    or is no image, make the loading raise. *)
Lemma load_image_missing_file (s : string) (e : exn) :
  has_prefix "/" s \/ has_prefix "./" s ->
  image_open_path s = Raise e -> load_image s = Raise e.
Proof.
  intros Hp He. rewrite (load_image_dispatch_path s Hp).
  unfold open_path. rewrite He. reflexivity.
Qed.

Lemma load_image_bad_base64 (s : string) (e : exn) :
  ~ has_prefix "data:image" s -> ~ has_prefix "/" s -> ~ has_prefix "./" s ->
  (b64decode s = Raise e \/
   exists data, b64decode s = Ret data /\ image_open_bytes data = Raise e) ->
  load_image s = Raise e.
Proof.
  intros H1 H2 H3 Hbad. unfold load_image.
  rewrite (startswith_false _ _ H1), (startswith_false _ _ H2), (startswith_false _ _ H3).
  simpl. unfold open_base64.
  destruct Hbad as [-> | (data & -> & ->)]; reflexivity.
Qed.

(** The run of the script after a successful start. *)
Lemma run_go (fallback : bool) (arg : string) (st : proc) :
  exists r st1,
    generate_embedding fallback arg st = (Ret r, st1) /\
    bind (generate_embedding fallback arg)
         (fun result => bind (print result) (fun _ => ret 0%Z)) st
    = (Ret 0%Z, {| rng := rng st1; stdout := (stdout st1 ++ [r])%list |}).
Proof.
  destruct (generate_embedding_returns fallback arg st) as (r & st1 & E).
  exists r, st1. split; [exact E|]. unfold bind at 1. rewrite E. reflexivity.
Qed.

(** Every run of the script.  Either an exception reaches the top
    level and nothing is printed, or the script ends with a status
    after printing one dictionary. *)
Lemma run_outcome (argv : list string) (st : proc) :
  (dies argv /\ exists e, run argv st = (Raise e, st)) \/
  (~ dies argv /\
   exists status r st',
     run argv st = (Ret status, st') /\
     stdout st' = (stdout st ++ [r])%list /\
     (status <> 0%Z <->
        PIL_INSTALLED = false \/ length argv <> 2 \/
        (OPENCLIP_AVAILABLE = true /\ exists e, create_model = Raise e)) /\
     (status <> 0%Z -> exists msg, r = EmbError msg) /\
     (forall prog arg e,
        argv = [prog; arg] -> status = 0%Z -> load_image arg = Raise e ->
        r = EmbError ("Failed to generate embedding: " ++ exn_str e))).
Proof.
  unfold run, dies. unfold bind at 1. unfold call at 1.
  destruct import_numpy as [[]|e0]; [|left; split; [left; eauto | eauto]].
  destruct pil_import_crash as [e0|];
    [left; split; [right; left; eauto | unfold raise; eauto]|].
  destruct PIL_INSTALLED eqn:Hpil; simpl.
  2:{ right. split.
      { intros [[e He] | [[e He] | [[H _] | [H _]]]]; discriminate. }
      eexists; eexists; eexists. split; [reflexivity|]. split; [reflexivity|].
      split; [split; [intros _; left; reflexivity | intros _; discriminate]|].
      split; [intros _; eexists; reflexivity|].
      intros prog arg e _ Hs. discriminate Hs. }
  destruct openclip_import_crash as [e0|];
    [left; split; [right; right; left; split; [reflexivity | eauto] | unfold raise; eauto]|].
  unfold main.
  destruct argv as [|prog [|arg [|x rest]]].
  1,2,4: (right; split;
          [ intros [[e He] | [[e He] | [[_ [e He]] | (_ & _ & Hl & _)]]];
            try discriminate; simpl in Hl; lia
          | eexists; eexists; eexists; split; [reflexivity|]; split; [reflexivity|];
            split; [split; [intros _; right; left; simpl; lia | intros _; discriminate]|];
            split; [intros _; eexists; reflexivity|];
            intros p a e Ha Hs; discriminate Hs ]).
  assert (Hgo : forall fallback, exists r st',
    bind (generate_embedding fallback arg)
         (fun result => bind (print result) (fun _ => ret 0%Z)) st = (Ret 0%Z, st') /\
    stdout st' = (stdout st ++ [r])%list /\
    (forall e, load_image arg = Raise e ->
       r = EmbError ("Failed to generate embedding: " ++ exn_str e))).
  { intros fallback.
    destruct (run_go fallback arg st) as (r & st1 & E & Erun).
    exists r. eexists. split; [exact Erun|].
    assert (Hst : forall e, load_image arg = Raise e ->
                  st1 = st /\ r = EmbError ("Failed to generate embedding: " ++ exn_str e)).
    { intros e Hl. rewrite (generate_embedding_load_error fallback arg st e Hl) in E.
      injection E as <- <-. split; reflexivity. }
    split.
    - simpl. f_equal.
      clear Hst Erun. revert E. unfold generate_embedding, try_except.
      unfold bind at 1. unfold call at 1.
      destruct (load_image arg) as [image|e]; [|intros [= _ <-]; reflexivity].
      destruct fallback; simpl.
      + unfold fallback_embedding, bind, call, np_random_seed, np_random_normal, ret.
        destruct (resize_224 image) as [small|e]; [|intros [= _ <-]; reflexivity].
        destruct (int16 _) as [seed|e]; [|intros [= _ <-]; reflexivity].
        destruct ((0 <=? seed)%Z && (seed <? 2 ^ 32)%Z); [|intros [= _ <-]; reflexivity].
        cbn [rng stdout]. destruct (draws 1024 (mt_seed seed)) as [xs g].
        intros [= _ <-]. reflexivity.
      + unfold real_embedding, bind, call, ret.
        destruct (preprocess image) as [t|e]; [|intros [= _ <-]; reflexivity].
        destruct (encode_image t) as [v|e]; intros [= _ <-]; reflexivity.
    - intros e Hl. apply (Hst e Hl). }
  unfold init_embedder.
  destruct OPENCLIP_AVAILABLE eqn:Hoc.
  - unfold bind at 1. unfold bind at 1. unfold call at 1.
    destruct torch_device as [[]|e0] eqn:Htd.
    2:{ left. split; [|eauto].
        right; right; right. repeat split. eauto. }
    assert (Hnd : ~ ((exists e, Ret () = Raise e) \/
                     (exists e, @None exn = Some e) \/
                     (true = true /\ exists e, @None exn = Some e) \/
                     (true = true /\ true = true /\ length [prog; arg] = 2%nat /\
                      exists e, @Ret unit () = Raise e))).
    { intros [[e He] | [[e He] | [[_ [e He]] | (_ & _ & _ & e & He)]]]; discriminate. }
    right. split; [exact Hnd|].
    destruct create_model as [[]|e] eqn:Hcm.
    + destruct (Hgo false) as (r & st' & E & Hout & Hprint).
      exists 0%Z, r, st'. split; [exact E|]. split; [exact Hout|]. split; [|split].
      * split; [intros Hs; exfalso; apply Hs; reflexivity|].
        intros [H|[H|[_ [e He]]]]; [discriminate H | simpl in H; lia | discriminate He].
      * intros Hs. exfalso. apply Hs. reflexivity.
      * intros p a e [= <- <-] _ Hl. apply Hprint. exact Hl.
    + eexists; eexists; eexists. split; [reflexivity|]. split; [reflexivity|].
      split; [|split].
      * split; [intros _; right; right; split; [reflexivity | exists e; reflexivity]
               | intros _; discriminate].
      * intros _. eexists; reflexivity.
      * intros p a e' _ Hs. discriminate Hs.
  - right. split.
    { intros [[e He] | [[e He] | [[_ [e He]] | (_ & H & _)]]]; discriminate. }
    unfold bind at 1. unfold ret at 1.
    destruct (Hgo true) as (r & st' & E & Hout & Hprint).
    exists 0%Z, r, st'. split; [exact E|]. split; [exact Hout|]. split; [|split].
    + split; [intros Hs; exfalso; apply Hs; reflexivity|].
      intros [H|[H|[H _]]]; [discriminate H | simpl in H; lia | discriminate H].
    + intros Hs. exfalso. apply Hs. reflexivity.
    + intros p a e [= <- <-] _ Hl. apply Hprint. exact Hl.
Qed.

(** C8, amended. The status the script ends with, 1 standing for an
    exception that reaches the top level.  It is non-zero exactly when
    the script dies of such an exception (an import failing outside its
    guard, or [torch.device] failing in [__init__]), or the image
    library is missing, or the number of command-line arguments is not
    one, or the model dependencies are present and loading the model
    fails.  Otherwise the status is zero, and an argument that cannot
    be loaded (a malformed base64 payload, a path that does not exist)
    gets an error dictionary with the exception's message printed. *)
Theorem run_exit_status (argv : list string) (st : proc) :
  let status := exit_status (fst (run argv st)) in
  (status <> 0%Z <->
     dies argv \/ PIL_INSTALLED = false \/ length argv <> 2 \/
     (OPENCLIP_AVAILABLE = true /\ exists e, create_model = Raise e)) /\
  ((exists e, fst (run argv st) = Raise e) <-> dies argv) /\
  (forall prog arg e,
     argv = [prog; arg] -> status = 0%Z -> load_image arg = Raise e ->
     fst (run argv st) = Ret 0%Z /\
     stdout (snd (run argv st)) =
     (stdout st ++ [EmbError ("Failed to generate embedding: " ++ exn_str e)%string])%list).
Proof.
  cbv zeta.
  destruct (run_outcome argv st)
    as [[Hd [e0 E]] | [Hnd (status & r & st' & E & Hout & Hiff & _ & Hload)]];
    rewrite E; simpl.
  - split; [split; [intros _; left; exact Hd | intros _; discriminate]|].
    split; [split; [intros _; exact Hd | intros _; eauto]|].
    intros prog arg e _ Hs. discriminate Hs.
  - split; [|split].
    + rewrite Hiff. split; [intros H; right; exact H|].
      intros [H | H]; [contradiction | exact H].
    + split; [intros [e He]; discriminate He | intros H; contradiction].
    + intros prog arg e Ha Hs Hl. split; [rewrite Hs; reflexivity|].
      rewrite Hout, (Hload prog arg e Ha Hs Hl). reflexivity.
Qed.

End EmbeddingCommandLine.

Section EmbeddingExamples.
Import OpenclipEmbeddings.
Local Open Scope R_scope.

Lemma fallback_embedding_deterministic_witness :
  let L := Demo.clip false true in
  load_image (L := L) "/data/chart.png" = Ret "iVBORw0KGgoAAAAN" /\
  load_image (L := L) "data:image/png;base64,iVBORw0KGgoAAAAN" = Ret "iVBORw0KGgoAAAAN" /\
  fst (generate_embedding (L := L) true "/data/chart.png" (Demo.clip_start false true 7)) =
  fst (generate_embedding (L := L) true "data:image/png;base64,iVBORw0KGgoAAAAN"
         (Demo.clip_start false true 2024)).
Proof.
  split; [reflexivity|]. split; [reflexivity|].
  exact (fallback_embedding_deterministic (L := Demo.clip false true)
           "/data/chart.png" "data:image/png;base64,iVBORw0KGgoAAAAN"
           (Demo.clip_start false true 7) (Demo.clip_start false true 2024)
           "iVBORw0KGgoAAAAN" eq_refl eq_refl).
Defined.

Lemma sum_squares_repeat_zero (n : nat) : sum_squares (repeat 0 n) = 0.
Proof. induction n as [|n IH]; simpl; [reflexivity | rewrite IH; ring]. Qed.

Lemma demo_draws (openclip loads : bool) (n : nat) : forall st,
  fst (draws (L := Demo.clip openclip loads) n st) = repeat 1 n.
Proof.
  induction n as [|n IH]; intros st; [reflexivity|].
  cbn [draws]. cbn [gauss Demo.clip Demo.clip_with].
  match goal with
  | |- context [@draws ?T ?I n ?s] => specialize (IH s); destruct (@draws T I n s) as [xs st2]
  end.
  simpl in *. rewrite IH. reflexivity.
Qed.

Lemma Ret_inj {A} (a b : A) : Ret a = Ret b -> a = b.
Proof. intros H. injection H as H. exact H. Qed.

Lemma demo_model_dimension (openclip loads : bool) :
  model_dimension (L := Demo.clip openclip loads) 1024.
Proof.
  intros t v Hv. cbn [encode_image Demo.clip Demo.clip_with] in Hv. apply Ret_inj in Hv. subst v.
  cbn [length]. rewrite repeat_length. reflexivity.
Qed.

Lemma demo_never_zero (openclip loads : bool) :
  never_zero (L := Demo.clip openclip loads).
Proof.
  split.
  - intros t v Hv. cbn [encode_image Demo.clip Demo.clip_with] in Hv. apply Ret_inj in Hv. subst v.
    cbn [sum_squares fold_right]. fold (sum_squares (repeat 0 1022)).
    rewrite sum_squares_repeat_zero. lra.
  - intros seed. rewrite demo_draws.
    change (repeat 1 1024) with (1 :: repeat 1 1023).
    cbn [sum_squares fold_right]. fold (sum_squares (repeat 1 1023)).
    pose proof (sum_squares_nonneg (repeat 1 1023)). lra.
Qed.

(** The claim as first stated, "non-zero exactly when no argument is
    supplied or the image library is missing": with the library present
    and two arguments supplied the status is 1, and so it is with one
    argument when the model fails to load. *)
Lemma run_nonzero_with_arguments :
  let argv := ["openclip_embeddings.py"; "a.png"; "b.png"] in
  run (L := Demo.clip false true) argv (Demo.clip_start false true 0)
    = (Ret 1%Z,
       Demo.clip_proc false true 0%Z
         [EmbError "Usage: python openclip_embeddings.py <image_path_or_base64>"]) /\
  ~ (1%Z <> 0%Z <->
     (length argv <= 1)%nat \/ PIL_INSTALLED (ClipLib := Demo.clip false true) = false) /\
  run (L := Demo.clip true false) ["openclip_embeddings.py"; "/data/chart.png"]
      (Demo.clip_start true false 0)
    = (Ret 1%Z,
       Demo.clip_proc true false 0%Z
         [EmbError "Failed to load OpenCLIP model: model weights not found"]).
Proof.
  split; [reflexivity|]. split; [|reflexivity].
  intros [H _]. destruct (H ltac:(discriminate)) as [Hl | Hp].
  - simpl in Hl. lia.
  - discriminate Hp.
Qed.

(** A malformed payload and a missing file, run through the script. *)
Example run_bad_inputs :
  run (L := Demo.clip false true) ["openclip_embeddings.py"; "not-base64"]
      (Demo.clip_start false true 0)
    = (Ret 0%Z,
       Demo.clip_proc false true 0%Z
         [EmbError "Failed to generate embedding: Incorrect padding"]) /\
  run (L := Demo.clip false true) ["openclip_embeddings.py"; "/no/such/file.png"]
      (Demo.clip_start false true 0)
    = (Ret 0%Z,
       Demo.clip_proc false true 0%Z
         [EmbError "Failed to generate embedding: [Errno 2] No such file or directory: '/no/such/file.png'"]) /\
  run (L := Demo.clip false true) ["openclip_embeddings.py"; "chart.png"]
      (Demo.clip_start false true 0)
    = (Ret 0%Z,
       Demo.clip_proc false true 0%Z
         [EmbError "Failed to generate embedding: Incorrect padding"]).
Proof. repeat split; reflexivity. Qed.

End EmbeddingExamples.

Section DepthExamples.
Import MidasDepth.

Lemma main_batch_in_fallback_witness :
  let a := {| input := "charts"; output := None; batch := true |} in
  DEPENDENCIES_AVAILABLE (MidasLib := Demo.lib false) = false /\
  (batch a = true ->
   main (L := Demo.lib false) a Demo.start =
     (Ret 0%Z,
      printed Demo.start
        (JsonDepth (DepthError "Batch mode not supported in fallback mode")))) /\
  (batch a = false ->
   exists r s',
     create_fallback_depth_map (L := Demo.lib false) (input a)
       (or_else (output a) (default_output (input a))) Demo.start = (Ret r, s') /\
     main (L := Demo.lib false) a Demo.start = (Ret 0%Z, printed s' (JsonDepth r))).
Proof.
  split; [reflexivity|].
  exact (main_batch_in_fallback (L := Demo.lib false)
           {| input := "charts"; output := None; batch := true |} Demo.start eq_refl).
Defined.

(** The same start without [--batch]: the fallback writes its map. *)
Example main_single_in_fallback :
  exists s',
    main (L := Demo.lib false) {| input := "charts/a.png"; output := None; batch := false |}
         Demo.start
    = (Ret 0%Z, s') /\
    stdout s' = [JsonDepth (DepthSuccess "charts/a.png" "charts/depthmaps/depth_a.png" None
                              "Fallback Edge-based Depth Simulation")] /\
    files s' !! "charts/depthmaps/depth_a.png" = Some (FileNode (GrayPNG [[255; 255; 255]%Z])).
Proof. eexists. split; [vm_compute; reflexivity|]. split; vm_compute; reflexivity. Qed.

(** The run of the specification's example on a 640x480 image. *)
Example main_chart_to_bare_name :
  main (L := Demo.lib true)
       {| input := "chart.png"; output := Some "depth.png"; batch := false |} Demo.start
  = (Ret 0%Z,
     {| files := Demo.disk; readonly := ∅;
        stdout := [ Text "Using device: cpu";
                    Text "✓ MiDaS DPT-Hybrid model loaded successfully";
                    JsonDepth (DepthError
                      "Depth map generation failed: [Errno 2] No such file or directory: ''") ] |}).
Proof. vm_compute. reflexivity. Qed.

(** With a directory in the output path, and with the default output
    path, the same image gives a 640x480 map. *)
Example main_chart_to_directory :
  exists s' px,
    main (L := Demo.lib true)
         {| input := "chart.png"; output := Some "out/depth.png"; batch := false |} Demo.start
    = (Ret 0%Z, s') /\
    files s' !! "out/depth.png" = Some (FileNode (GrayPNG px)) /\
    shape px = (480, 640)%nat /\
    last (stdout s') = Some (JsonDepth (DepthSuccess "chart.png" "out/depth.png"
                                          (Some (60, 60)%Q) "MiDaS DPT-Hybrid")).
Proof.
  eexists; eexists. split; [vm_compute; reflexivity|].
  split; [vm_compute; reflexivity|]. split; vm_compute; reflexivity.
Qed.

Example main_chart_default_output :
  exists s' px,
    main (L := Demo.lib true)
         {| input := "chart.png"; output := None; batch := false |} Demo.start
    = (Ret 0%Z, s') /\
    files s' !! "depthmaps/depth_chart.png" = Some (FileNode (GrayPNG px)) /\
    shape px = (480, 640)%nat.
Proof.
  eexists; eexists. split; [vm_compute; reflexivity|].
  split; vm_compute; reflexivity.
Qed.

End DepthExamples.

(* ===================================================================== *)
(** * Further properties of the depth-map tool *)
(* ===================================================================== *)

Section PathExamples.

(** [pathlib] on some texts, as Python 3 prints them. *)
Example path_str_examples :
  map path_str [""; "."; "./a"; "a/"; "a//b"; "a/./b"; "a/.."; "/"; "//"; "///a"; "//a";
                "/a/b/"; "./"; "charts/a.png"]
  = ["."; "."; "a"; "a"; "a/b"; "a/b"; "a/.."; "/"; "//"; "/a"; "//a";
     "/a/b"; "."; "charts/a.png"].
Proof. vm_compute. reflexivity. Qed.

Example parent_name_stem_suffix_examples :
  map (fun p => (parent p, name p, stem p, suffix p))
      ["a"; "a/b.png"; "/a"; "/"; "//a"; "."; ".."; "a/.hidden"; "a/b.tar.gz"; "a/b."]
  = [(".", "a", "a", ""); ("a", "b.png", "b", ".png"); ("/", "a", "a", "");
     ("/", "", "", ""); ("//", "a", "a", ""); (".", "", "", ""); (".", "..", "..", "");
     ("a", ".hidden", ".hidden", ""); ("a", "b.tar.gz", "b.tar", ".gz");
     ("a", "b.", "b.", "")].
Proof. vm_compute. reflexivity. Qed.

Example joinpath_examples :
  map (fun '(d, n) => joinpath d n)
      [(".", "a.png"); ("/", "a.png"); ("//", "a.png"); ("out", "a.png"); ("/data/out", "a.png")]
  = ["a.png"; "/a.png"; "//a.png"; "out/a.png"; "/data/out/a.png"].
Proof. vm_compute. reflexivity. Qed.

Example dirname_split_examples :
  map split ["depth.png"; "out/depth.png"; "/depth.png"; "out//depth.png"; "out/"; "//x"; ""]
  = [("", "depth.png"); ("out", "depth.png"); ("/", "depth.png"); ("out", "depth.png");
     ("out", ""); ("//", "x"); ("", "")].
Proof. vm_compute. reflexivity. Qed.

Example name_too_long_examples :
  map name_too_long ["charts"; Demo.long_name; "out/" ++ Demo.long_name; ""]
  = [false; true; true; false].
Proof. vm_compute. reflexivity. Qed.

End PathExamples.

Section PathLemmas.

(** Reduces [s ++ t] on a literal [s]. *)
Ltac sapp := unfold String.append; fold String.append.

Lemma rfind_app (c : ascii) (s t : string) :
  rfind c (s ++ t) =
  match rfind c t with
  | Some j => Some (String.length s + j)%nat
  | None => rfind c s
  end.
Proof.
  induction s as [|d s IH]; sapp; simpl.
  - destruct (rfind c t); reflexivity.
  - rewrite IH. destruct (rfind c t) as [j|]; [reflexivity|].
    destruct (rfind c s); reflexivity.
Qed.

Lemma rfind_lt (c : ascii) (s : string) (j : nat) :
  rfind c s = Some j -> (j < String.length s)%nat.
Proof.
  revert j. induction s as [|d s IH]; simpl; intros j H; [discriminate|].
  destruct (rfind c s) as [i|].
  - injection H as <-. specialize (IH i eq_refl). lia.
  - destruct (Ascii.eqb d c); [injection H as <-; lia | discriminate].
Qed.

(** Nothing after the last occurrence. *)
Lemma rfind_drop (c : ascii) (s : string) (j : nat) :
  rfind c s = Some j -> rfind c (drop (S j) s) = None.
Proof.
  revert j. induction s as [|d s IH]; simpl; intros j H; [discriminate|].
  destruct (rfind c s) as [i|] eqn:E.
  - injection H as <-. apply IH. reflexivity.
  - destruct (Ascii.eqb d c); [|discriminate]. injection H as <-.
    simpl. exact E.
Qed.

Lemma rfind_take_None (c : ascii) (s : string) (i : nat) :
  rfind c s = None -> rfind c (take i s) = None.
Proof.
  revert i. induction s as [|d s IH]; intros [|i] H; simpl in *; try reflexivity.
  destruct (rfind c s) as [j|] eqn:E; [discriminate|].
  rewrite (IH i eq_refl). destruct (Ascii.eqb d c); [discriminate | reflexivity].
Qed.

Lemma take_app_length (s t : string) : take (String.length s) (s ++ t) = s.
Proof.
  induction s as [|d s IH]; sapp; simpl; [destruct t; reflexivity | rewrite IH; reflexivity].
Qed.

Lemma take_app_succ (s : string) (c : ascii) (t : string) :
  take (S (String.length s)) (s ++ String c t) = s ++ String c EmptyString.
Proof.
  induction s as [|d s IH]; sapp; simpl; [destruct t; reflexivity | f_equal; exact IH].
Qed.

Lemma all_slashes_app (s t : string) :
  all_slashes (s ++ t) = all_slashes s && all_slashes t.
Proof.
  induction s as [|d s IH]; sapp; simpl; [reflexivity|].
  rewrite IH. destruct (Ascii.eqb d slash), (all_slashes s), (all_slashes t); reflexivity.
Qed.

Lemma rstrip_app (c : ascii) (s t : string) :
  rstrip c (s ++ t) =
  match rstrip c t with
  | EmptyString => rstrip c s
  | r => s ++ r
  end.
Proof.
  induction s as [|d s IH]; sapp; simpl.
  - destruct (rstrip c t); reflexivity.
  - rewrite IH. destruct (rstrip c t) as [|e r]; [reflexivity|].
    sapp. destruct (s ++ String e r) eqn:E; [|reflexivity].
    destruct s; discriminate.
Qed.

Lemma rstrip_empty (s : string) : rstrip slash s = "" -> all_slashes s = true.
Proof.
  induction s as [|d s IH]; simpl; [reflexivity|].
  destruct (rstrip slash s) as [|e r]; [|discriminate].
  destruct (Ascii.eqb d slash); [intros _; apply IH; reflexivity | discriminate].
Qed.


Lemma length_app (s t : string) :
  String.length (s ++ t) = (String.length s + String.length t)%nat.
Proof. induction s as [|d s IH]; sapp; simpl; [reflexivity | rewrite IH; reflexivity]. Qed.

(** The last component of a path holds no slash, and neither does its
    stem. *)
Lemma name_no_slash (p : string) : rfind slash (name p) = None.
Proof.
  unfold name. destruct (String.eqb p "."); [reflexivity|].
  destruct (rfind slash p) as [j|] eqn:E; [apply rfind_drop|]; exact E.
Qed.

Lemma stem_no_slash (p : string) : rfind slash (stem p) = None.
Proof.
  unfold stem. pose proof (name_no_slash p) as Hn.
  destruct (rfind dot (name p)) as [i|]; [|exact Hn].
  destruct (_ && _); [apply rfind_take_None|]; exact Hn.
Qed.

(** [os.path.dirname] is empty exactly on the paths without a slash. *)
Lemma dirname_empty_iff (p : string) : dirname p = "" <-> rfind slash p = None.
Proof.
  unfold dirname. split.
  - destruct (rfind slash p) as [j|] eqn:E; [|reflexivity].
    cbv zeta.
    assert (Hne : take (S j) p <> "").
    { apply rfind_lt in E. destruct p; simpl in *; [lia | discriminate]. }
    remember (take (S j) p) as head eqn:Eh. clear Eh. intros H. exfalso.
    destruct (String.eqb head "") eqn:Ee.
    { apply String.eqb_eq in Ee. contradiction. }
    destruct (all_slashes head) eqn:Ea; cbn [negb andb] in H; [contradiction|].
    apply rstrip_empty in H. congruence.
  - intros ->. reflexivity.
Qed.

(** The file name of an output of this tool. *)
Lemma depth_name_no_slash (p : string) :
  rfind slash ("depth_" ++ stem p ++ ".png") = None.
Proof.
  change ("depth_" ++ stem p ++ ".png") with ("depth_" ++ (stem p ++ ".png")).
  rewrite !rfind_app. rewrite stem_no_slash. reflexivity.
Qed.

(** The directory of [x/n] is [x], for [x] ending in a component. *)
Lemma dirname_in_depthmaps (y n : string) :
  rfind slash n = None ->
  dirname ((y ++ "depthmaps") ++ "/" ++ n) = y ++ "depthmaps".
Proof.
  intros Hn.
  change ((y ++ "depthmaps") ++ "/" ++ n)
    with ((y ++ "depthmaps") ++ String slash n).
  assert (Hr : rfind slash ((y ++ "depthmaps") ++ String slash n)
               = Some (String.length (y ++ "depthmaps"))).
  { rewrite rfind_app. cbn [rfind]. rewrite Hn, Ascii.eqb_refl. f_equal. lia. }
  unfold dirname. cbv zeta. rewrite Hr, take_app_succ.
  assert (Hne : String.eqb ((y ++ "depthmaps") ++ "/") "" = false).
  { destruct (String.eqb_spec ((y ++ "depthmaps") ++ "/") "") as [E|]; [|reflexivity].
    apply (f_equal String.length) in E. rewrite !length_app in E. simpl in E. lia. }
  change (String slash "") with "/". rewrite Hne.
  rewrite !all_slashes_app. simpl. rewrite !andb_false_r. simpl.
  rewrite rstrip_app. simpl. rewrite rstrip_app. simpl. reflexivity.
Qed.

End PathLemmas.

Section Effects.
Import MidasDepth.
Context `{L : MidasLib}.

Lemma rfind_Some_In (c : ascii) (s : string) :
  forall j, rfind c s = Some j -> In c (list_ascii_of_string s).
Proof.
  induction s as [|d s IH]; simpl; intros j H; [discriminate|].
  destruct (rfind c s) as [i|].
  - right. eapply IH. reflexivity.
  - destruct (Ascii.eqb_spec d c) as [->|Hne]; [left; reflexivity | discriminate].
Qed.

Lemma rfind_None_iff (c : ascii) (s : string) :
  rfind c s = None <-> ~ In c (list_ascii_of_string s).
Proof.
  split.
  - induction s as [|d s IH]; simpl; [tauto|].
    destruct (rfind c s) as [j|]; [discriminate|].
    destruct (Ascii.eqb_spec d c) as [->|Hne]; [discriminate|].
    intros _ [H|H]; [congruence | exact (IH eq_refl H)].
  - intros Hno. destruct (rfind c s) as [j|] eqn:E; [|reflexivity].
    exfalso. apply Hno. eapply rfind_Some_In. exact E.
Qed.

(** Rows of one length, and what flattening a column gives. *)
Lemma same_row_lengths {A B} (a : list (list A)) (b : list (list B)) (w : nat) :
  map length a = map length b ->
  Forall (fun r => length r = w) b -> Forall (fun r => length r = w) a.
Proof.
  revert b. induction a as [|r a IH]; intros [|r' b] E Hb; try discriminate; constructor.
  - injection E as E1 _. rewrite E1. exact (Forall_inv Hb).
  - injection E as _ E2. eapply IH; [exact E2 | exact (Forall_inv_tail Hb)].
Qed.

Lemma concat_singletons {A} (a : list (list A)) :
  Forall (fun r => length r = 1%nat) a -> length (concat a) = length a.
Proof.
  induction 1 as [|r a Hr _ IH]; simpl; [reflexivity|].
  rewrite List.length_app, IH, Hr. reflexivity.
Qed.

(** ** What [os.makedirs] and a write can change *)

Ltac sapp := unfold String.append; fold String.append.

Lemma take_prefix (n : nat) (s : string) : exists rest, s = take n s ++ rest.
Proof.
  revert n. induction s as [|d s IH]; intros [|n]; simpl; try (eexists; reflexivity).
  destruct (IH n) as [rest E]. exists rest. sapp. f_equal. exact E.
Qed.

Lemma rstrip_prefix (c : ascii) (s : string) : exists rest, s = rstrip c s ++ rest.
Proof.
  induction s as [|d s IH]; simpl; [exists ""; reflexivity|].
  destruct IH as [rest E]. destruct (rstrip c s) as [|e r].
  - destruct (Ascii.eqb d c); [eexists; reflexivity | exists s; reflexivity].
  - exists rest. sapp. f_equal. exact E.
Qed.

Lemma has_prefix_trans (a b c : string) :
  has_prefix a b -> has_prefix b c -> has_prefix a c.
Proof.
  intros [r1 ->] [r2 ->]. exists (r1 ++ r2).
  clear. induction a as [|d a IH]; sapp; [reflexivity | f_equal; exact IH].
Qed.


(** The directory part of a path is an initial segment of it, and so
    are the two parts [os.makedirs] goes up by. *)
Lemma dirname_prefix (p : string) : has_prefix (dirname p) p.
Proof.
  unfold dirname. cbv zeta.
  set (i := match rfind slash p with Some j => S j | None => 0%nat end).
  destruct (negb _ && negb _).
  - eapply has_prefix_trans; [apply rstrip_prefix | apply take_prefix].
  - apply take_prefix.
Qed.














(** X5. An output path without a slash never works: [os.path.dirname]
    gives [''], [os.makedirs('')] raises, and both the real and the
    fallback operation return an error dictionary and leave the process
    as it was. *)
Theorem output_path_needs_directory input_path output_path s :
  ~ In slash (list_ascii_of_string output_path) ->
  (exists msg, generate_depth_map input_path output_path s = (Ret (DepthError msg), s)) /\
  (exists msg, create_fallback_depth_map input_path output_path s
               = (Ret (DepthError msg), s)).
Proof.
  intros Hno. apply rfind_None_iff in Hno. apply dirname_empty_iff in Hno.
  split; [apply generate_depth_map_no_directory | apply create_fallback_no_directory];
    exact Hno.
Qed.

(** X19. The size of the image a success writes, when [interpolate]
    returns an array of the size it was asked for, the H x W of the
    input.  With H other than 1 the image has H rows of W pixels.  An
    input of one row comes out as a column, W rows of one pixel:
    [.squeeze()] leaves a vector, which [Image.fromarray] reads as a
    column.  An input of one pixel never succeeds: [.squeeze()] leaves
    an array without dimensions and [Image.fromarray] raises on it. *)
Theorem generate_depth_map_same_size input_path output_path s i o rg m s' :
  generate_depth_map input_path output_path s = (Ret (DepthSuccess i o rg m), s') ->
  exists c img t pr d px,
    files s !! input_path = Some (FileNode c) /\ imdecode c = Some img /\
    dpt_transform (cvtColor_BGR2RGB img) = Ret t /\ midas_model t = Ret pr /\
    interpolate_bicubic pr (shape img) = Ret d /\
    files s' !! output_path = Some (FileNode (GrayPNG px)) /\
    forall h w : nat,
      shape img = (h, w) -> length d = h -> Forall (fun r => length r = w) d ->
      (h <> 1%nat -> length px = h /\ Forall (fun r => length r = w) px) /\
      (h = 1%nat -> w <> 1%nat /\ length px = w /\ Forall (fun r => length r = 1%nat) px).
Proof.
  intros E. apply generate_depth_map_success in E
    as (c & img & t & pr & d & px & im & lo & hi
        & Hf & Hi & Ht & Hm & Hd & Hn & Ha & _ & _ & _ & Hw).
  exists c, img, t, pr, d, im.
  split; [exact Hf|]. split; [exact Hi|]. split; [exact Ht|]. split; [exact Hm|].
  split.
  { rewrite <- Hd. f_equal. unfold shape, cvtColor_BGR2RGB.
    rewrite length_map. destruct img as [|r img']; simpl; [reflexivity|].
    rewrite length_map. reflexivity. }
  split; [exact Hw|]. intros h w _ Hh Hall.
  assert (Hsh : map length px = map length d).
  { unfold depth_to_uint8 in Hn.
    destruct (amin d) as [lo'|e]; [|discriminate].
    destruct (amax d) as [hi'|e]; [|discriminate].
    injection Hn as <- _ _. rewrite to_uint8_shape. apply normalize_shape. }
  assert (Hlen : length px = h).
  { rewrite <- (length_map length px), Hsh, length_map. exact Hh. }
  assert (Hrows : Forall (fun r => length r = w) px).
  { eapply same_row_lengths; eassumption. }
  clear Hn Hsh Hall Hh Hd Hw.
  unfold squeeze, shape in Ha. rewrite Hlen in Ha. split.
  - (* H other than 1 *)
    intros Hh1. destruct (Nat.eqb_spec h 1) as [|_]; [contradiction|]. simpl in Ha.
    destruct px as [|r0 rest]; [injection Ha as <-; split; [exact Hlen | constructor]|].
    pose proof (Forall_inv Hrows) as Hr0. simpl in Hr0. rewrite Hr0 in Ha.
    destruct (Nat.eqb_spec w 1) as [Hw1|_]; injection Ha as <-.
    + split.
      * rewrite length_map, <- Hlen. apply (concat_singletons (r0 :: rest)).
        rewrite <- Hw1. exact Hrows.
      * rewrite Hw1. apply Forall_map, Forall_forall. intros x _. reflexivity.
    + split; assumption.
  - (* H = 1 *)
    intros ->. simpl in Ha.
    destruct px as [|r0 [|r1 rest]]; try discriminate Hlen.
    pose proof (Forall_inv Hrows) as Hr0. simpl in Hr0. rewrite Hr0 in Ha.
    destruct (Nat.eqb_spec w 1) as [Hw1|Hw1].
    + exfalso. simpl in Ha. rewrite app_nil_r in Ha.
      destruct r0 as [|x r0]; [simpl in Hr0; lia | discriminate].
    + simpl in Ha. rewrite app_nil_r in Ha. injection Ha as <-.
      split; [exact Hw1|]. split; [rewrite length_map; exact Hr0|].
      apply Forall_map, Forall_forall. intros x _. reflexivity.
Qed.

Lemma app_assoc_slash (q t : string) : q ++ "/" ++ t = (q ++ "/") ++ t.
Proof. induction q as [|d q IH]; sapp; [reflexivity | f_equal; exact IH]. Qed.

(** X6. With [--output] omitted the single-image output path is
    [<parent>/depthmaps/depth_<stem>.png], parent and stem being those
    of the input as [Path] reads it; its directory part is
    [<parent>/depthmaps] and never empty. *)
Theorem default_output_has_directory (input : string) :
  default_output input =
    joinpath (joinpath (parent (path_str input)) "depthmaps")
             ("depth_" ++ stem (path_str input) ++ ".png") /\
  dirname (default_output input) = joinpath (parent (path_str input)) "depthmaps" /\
  dirname (default_output input) <> "" /\
  (exists y, dirname (default_output input) = y ++ "depthmaps").
Proof.
  split; [reflexivity|].
  assert (Hy : exists y, joinpath (parent (path_str input)) "depthmaps" = y ++ "depthmaps").
  { unfold joinpath.
    destruct (String.eqb (parent (path_str input)) "."); [exists ""; reflexivity|].
    destruct (String.eqb (parent (path_str input)) "/"); [exists "/"; reflexivity|].
    destruct (String.eqb (parent (path_str input)) "//"); [exists "//"; reflexivity|].
    exists (parent (path_str input) ++ "/"). apply app_assoc_slash. }
  destruct Hy as [y Hy].
  assert (Hlen : (9 <= String.length (y ++ "depthmaps"))%nat)
    by (rewrite length_app; simpl; lia).
  assert (Hd : dirname (default_output input) = y ++ "depthmaps").
  { unfold default_output. cbv zeta. rewrite Hy. unfold joinpath at 1.
    destruct (String.eqb_spec (y ++ "depthmaps") ".") as [E|_].
    { rewrite E in Hlen. simpl in Hlen. lia. }
    destruct (String.eqb_spec (y ++ "depthmaps") "/") as [E|_].
    { rewrite E in Hlen. simpl in Hlen. lia. }
    destruct (String.eqb_spec (y ++ "depthmaps") "//") as [E|_].
    { rewrite E in Hlen. simpl in Hlen. lia. }
    apply dirname_in_depthmaps, depth_name_no_slash. }
  split; [rewrite Hy; exact Hd|]. split.
  - rewrite Hd. intros E. rewrite E in Hlen. simpl in Hlen. lia.
  - exists y. exact Hd.
Qed.

(** The default output of some inputs that [Path] rewrites. *)
Example default_output_normalised :
  map default_output ["chart.png"; "./sub/chart.png"; "charts/"; "/data//chart.v2.png"; "."]
  = ["depthmaps/depth_chart.png"; "sub/depthmaps/depth_chart.png";
     "depthmaps/depth_charts.png"; "/data/depthmaps/depth_chart.v2.png";
     "depthmaps/depth_.png"].
Proof. vm_compute. reflexivity. Qed.

End Effects.

Section BatchEffects.
Import MidasDepth.
Context `{L : MidasLib}.

(** A success echoes the two paths and names the model. *)
Lemma generate_depth_map_success_echo input_path output_path s i o rg m s' :
  generate_depth_map input_path output_path s = (Ret (DepthSuccess i o rg m), s') ->
  i = input_path /\ o = output_path /\ m = "MiDaS DPT-Hybrid".
Proof.
  rewrite generate_depth_map_guard.
  unfold generate_depth_map_body, cv2_imread, bind, call, ret.
  destruct (files s !! input_path) as [[names|c]|]; try discriminate.
  destruct (imdecode c) as [img|]; try discriminate.
  destruct (dpt_transform _) as [t|e]; try discriminate.
  destruct (midas_model t) as [pr|e]; try discriminate.
  destruct (interpolate_bicubic pr _) as [d|e]; try discriminate.
  destruct (depth_to_uint8 d) as [[px [lo hi]]|e]; try discriminate.
  destruct (os_makedirs _ s) as [[[]|e] s1]; try discriminate.
  destruct (fromarray_L _) as [im|e]; try discriminate.
  destruct (write_file _ _ s1) as [[[]|e] s2]; try discriminate.
  intros [= <- <- _ <- _]. auto.
Qed.







(** The entries of a report, one by one. *)
Lemma batch_loop_entries input_dir output_dir image_files : forall s results s',
  for_append (batch_step input_dir output_dir) image_files s = (Ret results, s') ->
  Forall2 (fun f e =>
             file e = name f /\
             forall i o rg m, result e = DepthSuccess i o rg m ->
               i = joinpath input_dir f /\ o = joinpath output_dir ("depth_" ++ stem f ++ ".png") /\
               m = "MiDaS DPT-Hybrid")
          image_files results.
Proof.
  induction image_files as [|f fs IH]; intros s results s'; simpl.
  - intros [= <- _]. constructor.
  - unfold bind at 1. unfold batch_step at 1. unfold bind at 1.
    destruct (generate_depth_map _ _ s) as [[d|e] s1] eqn:E; [|discriminate].
    unfold ret at 1. unfold bind at 1.
    destruct (for_append _ fs s1) as [[ys|e] s2] eqn:E2; [|discriminate].
    intros [= <- _]. constructor; [|eapply IH; exact E2].
    split; [reflexivity|]. simpl. intros i o rg m ->.
    apply generate_depth_map_success_echo in E. exact E.
Qed.

(** X8. Every entry of a batch report carries the name of its file,
    in the order of the listing of the input directory, and a
    successful entry names as input the file inside the input directory
    and as output [<output_dir>/depth_<stem>.png], both directories as
    [Path] reads them. *)
Theorem process_batch_entries input_dir output_dir s results total success_count s' :
  process_batch_any input_dir output_dir s
    = (Ret (BatchReport results total success_count), s') ->
  exists entries,
    files s !! path_str input_dir = Some (DirNode entries) /\
    Forall2 (fun f e =>
               file e = name f /\
               forall i o rg m, result e = DepthSuccess i o rg m ->
                 i = joinpath (path_str input_dir) f /\
                 o = joinpath (path_str output_dir) ("depth_" ++ stem f ++ ".png") /\
                 m = "MiDaS DPT-Hybrid")
            (List.filter is_image_file entries) results /\
    total = length results /\
    success_count = length (List.filter (fun r => get_success (result r)) results).
Proof.
  unfold process_batch_any, process_batch_paths, path_exists, iterdir. unfold bind at 1.
  destruct (files s !! path_str input_dir) as [[entries|c]|] eqn:Hd; simpl.
  2:{ unfold bind at 1. rewrite Hd. discriminate. }
  2:{ destruct (name_too_long _); discriminate. }
  unfold bind at 1. rewrite Hd.
  destruct (List.filter is_image_file entries) as [|f fs] eqn:Ef; [discriminate|].
  unfold bind at 1.
  destruct (for_append _ (f :: fs) s) as [[rs|e] s1] eqn:E; [|discriminate].
  intros [= <- <- <- _]. exists entries. split; [reflexivity|].
  rewrite Ef. apply batch_loop_entries in E. repeat split. exact E.
Qed.

(** With ['.'] as output directory every output path is a bare file
    name. *)
Lemma batch_loop_dot input_dir image_files : forall s,
  exists results,
    for_append (batch_step input_dir ".") image_files s = (Ret results, s) /\
    length results = length image_files /\
    Forall (fun e => get_success (result e) = false) results.
Proof.
  induction image_files as [|f fs IH]; intros s; simpl.
  - exists []. repeat split. constructor.
  - unfold bind at 1. unfold batch_step at 1. unfold bind at 1.
    assert (Hd : dirname (joinpath "." ("depth_" ++ stem f ++ ".png")) = "").
    { change (joinpath "." ("depth_" ++ stem f ++ ".png"))
        with ("depth_" ++ stem f ++ ".png").
      apply dirname_empty_iff, depth_name_no_slash. }
    destruct (generate_depth_map_no_directory (joinpath input_dir f) _ s Hd) as (msg & E).
    rewrite E. unfold ret at 1. unfold bind at 1.
    destruct (IH s) as (rs & E2 & Hlen & Hall). rewrite E2.
    eexists. split; [reflexivity|]. simpl. split; [congruence|].
    constructor; [reflexivity | exact Hall].
Qed.

(** X9. A batch sent to the output directory ['.'] converts nothing:
    the output paths are bare names [depth_<stem>.png], so every entry
    of the report is an error, [success_count] is 0 and the process is
    left as it was. *)
Theorem process_batch_into_dot input_dir s entries :
  files s !! input_dir = Some (DirNode entries) ->
  List.filter is_image_file entries <> [] ->
  exists results,
    process_batch input_dir "." s = (Ret (BatchReport results (length results) 0), s) /\
    length results = length (List.filter is_image_file entries) /\
    Forall (fun e => get_success (result e) = false) results.
Proof.
  intros Hd Hne. unfold process_batch, process_batch_paths, path_exists, iterdir.
  unfold bind at 1. rewrite Hd. simpl.
  unfold bind at 1. rewrite Hd.
  destruct (List.filter is_image_file entries) as [|f fs] eqn:Ef; [congruence|].
  unfold bind at 1.
  destruct (batch_loop_dot input_dir (f :: fs) s) as (rs & E & Hlen & Hall).
  rewrite E. exists rs. split; [|split; assumption].
  unfold ret. do 3 f_equal.
  clear -Hall. induction Hall as [|e es He _ IH]; simpl; [reflexivity|].
  rewrite He. exact IH.
Qed.

End BatchEffects.

Section EffectWitnesses.
Import MidasDepth.

Lemma generate_depth_map_same_size_witness :
  let L := Demo.lib true in
  let run := generate_depth_map (L := L) "charts/a.png" "out/depth_a.png" Demo.start in
  run = (Ret (DepthSuccess "charts/a.png" "out/depth_a.png" (Some (291, 297)%Q)
                "MiDaS DPT-Hybrid"), snd run) /\
  exists c img t pr d px,
    files Demo.start !! "charts/a.png" = Some (FileNode c) /\ imdecode c = Some img /\
    dpt_transform (cvtColor_BGR2RGB img) = Ret t /\ midas_model t = Ret pr /\
    interpolate_bicubic pr (shape img) = Ret d /\
    files (snd run) !! "out/depth_a.png" = Some (FileNode (GrayPNG px)) /\
    forall h w : nat,
      shape img = (h, w) -> length d = h -> Forall (fun r => length r = w) d ->
      (h <> 1%nat -> length px = h /\ Forall (fun r => length r = w) px) /\
      (h = 1%nat -> w <> 1%nat /\ length px = w /\ Forall (fun r => length r = 1%nat) px).
Proof.
  assert (E : generate_depth_map (L := Demo.lib true) "charts/a.png" "out/depth_a.png"
                Demo.start
              = (Ret (DepthSuccess "charts/a.png" "out/depth_a.png" (Some (291, 297)%Q)
                        "MiDaS DPT-Hybrid"),
                 snd (generate_depth_map (L := Demo.lib true) "charts/a.png"
                        "out/depth_a.png" Demo.start)))
    by (vm_compute; reflexivity).
  split; [exact E|].
  exact (generate_depth_map_same_size (L := Demo.lib true) _ _ _ _ _ _ _ _ E).
Defined.

(** The sizes of the witness and of two more runs: one row of three
    pixels is written as three rows of one; two rows of two keep their
    shape; one pixel is refused. *)
Example generate_depth_map_sizes :
  let L := Demo.lib true in
  (exists s', generate_depth_map (L := L) "charts/a.png" "out/depth_a.png" Demo.start
              = (Ret (DepthSuccess "charts/a.png" "out/depth_a.png" (Some (291, 297)%Q)
                        "MiDaS DPT-Hybrid"), s') /\
              files s' !! "out/depth_a.png" = Some (FileNode (GrayPNG [[0]; [127]; [255]]%Z))) /\
  (exists s', generate_depth_map (L := L) "tiles/grid.png" "out/depth_grid.png" Demo.start
              = (Ret (DepthSuccess "tiles/grid.png" "out/depth_grid.png" (Some (0, 90)%Q)
                        "MiDaS DPT-Hybrid"), s') /\
              files s' !! "out/depth_grid.png"
              = Some (FileNode (GrayPNG [[0; 85]; [170; 255]]%Z))) /\
  (exists s', generate_depth_map (L := L) "tiles/dot.png" "out/depth_dot.png" Demo.start
              = (Ret (DepthError "Depth map generation failed: tuple index out of range"),
                 s') /\
              files s' !! "out/depth_dot.png" = None).
Proof.
  split; [|split]; eexists; (split; [vm_compute; reflexivity | vm_compute; reflexivity]).
Qed.


(** The directories of that run: [out] and [out/maps] are both new. *)
Example generate_depth_map_makes_ancestors :
  let s' := snd (generate_depth_map (L := Demo.lib true) "charts/a.png"
                   "out/maps/depth_a.png" Demo.start) in
  files Demo.start !! "out" = None /\ files Demo.start !! "out/maps" = None /\
  files s' !! "out" = Some (DirNode []) /\ files s' !! "out/maps" = Some (DirNode []).
Proof. repeat split; vm_compute; reflexivity. Qed.

(** Below a regular file no directory can be made. *)
Example generate_depth_map_below_a_file :
  generate_depth_map (L := Demo.lib true) "charts/a.png" "chart.png/maps/depth_a.png"
    Demo.start
  = (Ret (DepthError
            "Depth map generation failed: [Errno 20] Not a directory: 'chart.png/maps'"),
     Demo.start).
Proof. vm_compute. reflexivity. Qed.

Lemma output_path_needs_directory_witness :
  ~ In slash (list_ascii_of_string "depth.png") /\
  (exists msg, generate_depth_map (L := Demo.lib true) "chart.png" "depth.png" Demo.start
               = (Ret (DepthError msg), Demo.start)) /\
  (exists msg, create_fallback_depth_map (L := Demo.lib true) "chart.png" "depth.png"
                 Demo.start = (Ret (DepthError msg), Demo.start)).
Proof.
  assert (H : ~ In slash (list_ascii_of_string "depth.png")).
  { simpl. intros Hin. repeat (destruct Hin as [Hin|Hin]; [discriminate Hin|]). exact Hin. }
  split; [exact H|].
  exact (output_path_needs_directory (L := Demo.lib true) "chart.png" "depth.png"
           Demo.start H).
Defined.


(** The run of that witness, and a batch sent to its own input
    directory, where an input that has the name of an output is
    replaced by the depth map of another. *)
Example process_batch_any_charts :
  exists s',
    process_batch_any (L := Demo.lib true) "./charts/" "out//maps/" Demo.start =
    (Ret (BatchReport
            [ {| file := "a.png";
                 result := DepthSuccess "charts/a.png" "out/maps/depth_a.png"
                             (Some (291, 297)%Q) "MiDaS DPT-Hybrid" |};
              {| file := "B.JPG";
                 result := DepthSuccess "charts/B.JPG" "out/maps/depth_B.png"
                             (Some (366, 366)%Q) "MiDaS DPT-Hybrid" |};
              {| file := "broken.bmp";
                 result := DepthError "Could not load image: charts/broken.bmp" |} ]
            3 2), s') /\
    files s' !! "out" = Some (DirNode []) /\
    files s' !! "out/maps" = Some (DirNode []) /\
    files s' !! "out/maps/depth_a.png" = Some (FileNode (GrayPNG [[0]; [127]; [255]]%Z)).
Proof. eexists. repeat split; vm_compute; reflexivity. Qed.

Example process_batch_into_input_directory :
  exists r s',
    process_batch_any (L := Demo.lib true) "mixed" "mixed" Demo.start = (Ret r, s') /\
    files Demo.start !! "mixed/depth_a.png" = Some (FileNode (Encoded "zz")) /\
    files s' !! "mixed/depth_a.png" = Some (FileNode (GrayPNG [[0]; [127]; [255]]%Z)).
Proof. eexists; eexists. repeat split; vm_compute; reflexivity. Qed.

Lemma process_batch_entries_witness :
  let L := Demo.lib true in
  let run := process_batch_any (L := L) "./charts/" "out//maps/" Demo.start in
  exists results,
    run = (Ret (BatchReport results 3 2), snd run) /\
    exists entries,
      files Demo.start !! path_str "./charts/" = Some (DirNode entries) /\
      Forall2 (fun f e =>
                 file e = name f /\
                 forall i o rg m, result e = DepthSuccess i o rg m ->
                   i = joinpath (path_str "./charts/") f /\
                   o = joinpath (path_str "out//maps/") ("depth_" ++ stem f ++ ".png") /\
                   m = "MiDaS DPT-Hybrid")
              (List.filter is_image_file entries) results /\
      3 = length results /\
      2 = length (List.filter (fun r => get_success (result r)) results).
Proof.
  set (run := process_batch_any (L := Demo.lib true) "./charts/" "out//maps/" Demo.start).
  cbv zeta.
  assert (E : exists results, run = (Ret (BatchReport results 3 2), snd run)).
  { eexists. vm_compute. reflexivity. }
  destruct E as [results E]. exists results. split; [exact E|].
  exact (process_batch_entries (L := Demo.lib true) _ _ _ _ _ _ _ E).
Defined.

Lemma process_batch_into_dot_witness :
  let entries := ["a.png"; "notes.txt"; "B.JPG"; "broken.bmp"] in
  files Demo.start !! "charts" = Some (DirNode entries) /\
  List.filter is_image_file entries <> [] /\
  exists results,
    process_batch (L := Demo.lib true) "charts" "." Demo.start
      = (Ret (BatchReport results (length results) 0), Demo.start) /\
    length results = length (List.filter is_image_file entries) /\
    Forall (fun e => get_success (result e) = false) results.
Proof.
  assert (Hd : files Demo.start !! "charts"
               = Some (DirNode ["a.png"; "notes.txt"; "B.JPG"; "broken.bmp"]))
    by (vm_compute; reflexivity).
  assert (Hne : List.filter is_image_file ["a.png"; "notes.txt"; "B.JPG"; "broken.bmp"] <> [])
    by (vm_compute; discriminate).
  split; [exact Hd|]. split; [exact Hne|].
  exact (process_batch_into_dot (L := Demo.lib true) "charts" Demo.start _ Hd Hne).
Defined.

End EffectWitnesses.

Section FallbackAndMain.
Import MidasDepth.
Context `{L : MidasLib}.

(** ** [create_fallback_depth_map] *)



(** X10. The fallback reports a success it has not checked: when the
    image decodes, the filters and the encoder succeed and the output
    directory can be made, the result is a success dictionary even if
    writing the output file fails, and the process is left as
    [os.makedirs] left it, with nothing written. *)
Theorem create_fallback_unchecked_write input_path output_path s c img ed bl enc s1 e s2 :
  import_cv2_pil = Ret tt ->
  files s !! input_path = Some (FileNode c) -> imdecode_gray c = Some img ->
  canny img 50 150 = Ret ed ->
  gaussian_blur (map (map (fun v => ((255 - v) mod 256)%Z)) ed) 15 = Ret bl ->
  os_makedirs (dirname output_path) s = (Ret tt, s1) ->
  imencode output_path bl = Ret enc ->
  write_file output_path enc s1 = (Raise e, s2) ->
  create_fallback_depth_map input_path output_path s =
    (Ret (DepthSuccess input_path output_path None "Fallback Edge-based Depth Simulation"),
     s1).
Proof.
  intros Hi Hf Hd Hc Hb Hm He Hw.
  pose proof (write_file_raise _ _ _ _ _ Hw) as ->.
  unfold create_fallback_depth_map, cv2_imread_gray, cv2_imwrite, try_except, bind, call, ret.
  rewrite Hi, Hf, Hd, Hc, Hb, Hm, He, Hw. reflexivity.
Qed.

(** ** [main] *)







End FallbackAndMain.

Section RecognisedNames.
Import MidasDepth.

Lemma lower_ascii_dot (c : ascii) : Ascii.eqb (lower_ascii c) dot = Ascii.eqb c dot.
Proof. destruct c as [[] [] [] [] [] [] [] []]; reflexivity. Qed.

Lemma rfind_lower_dot (s : string) : rfind dot (lower s) = rfind dot s.
Proof.
  induction s as [|c s IH]; simpl; [reflexivity|].
  rewrite IH, lower_ascii_dot. reflexivity.
Qed.

Lemma length_lower (s : string) : String.length (lower s) = String.length s.
Proof. induction s as [|c s IH]; simpl; [reflexivity | rewrite IH; reflexivity]. Qed.

Lemma take_drop (i : nat) (s : string) : take i s ++ drop i s = s.
Proof.
  revert i. induction s as [|c s IH]; intros [|i]; try reflexivity.
  simpl. unfold String.append; fold String.append. rewrite IH. reflexivity.
Qed.

Lemma drop_app_length (s t : string) : drop (String.length s) (s ++ t) = t.
Proof.
  induction s as [|c s IH]; unfold String.append; fold String.append; simpl;
    [destruct t; reflexivity | exact IH].
Qed.

Lemma name_without_slash (n : string) :
  ~ In slash (list_ascii_of_string n) -> n <> "." -> name n = n.
Proof.
  intros H Hdot. apply rfind_None_iff in H. unfold name. rewrite H.
  destruct (String.eqb_spec n "."); [contradiction | reflexivity].
Qed.

(** The five extensions: a dot first and only there, four or five
    characters long. *)
Lemma extension_shape (ext : string) :
  lower ext ∈ image_extensions ->
  rfind dot ext = Some 0%nat /\ (4 <= String.length ext)%nat.
Proof.
  intros H. rewrite <- rfind_lower_dot, <- length_lower.
  unfold image_extensions in H.
  repeat (apply elem_of_cons in H as [-> | H]; [split; [reflexivity | simpl; lia]|]).
  apply elem_of_nil in H. contradiction.
Qed.

(** X13. Which entries a batch takes: a name is recognised exactly when
    it is a non-empty stem followed by an extension that, in lower
    case, is one of [.png .jpg .jpeg .bmp .tiff].  A name that is only
    an extension, such as [.png], is not recognised. *)
Theorem is_image_file_spec (n : string) :
  ~ In slash (list_ascii_of_string n) ->
  (is_image_file n = true <->
   exists st ext, n = st ++ ext /\ st <> "" /\ lower ext ∈ image_extensions).
Proof.
  intros Hn. destruct (String.eqb_spec n ".") as [->|Hdot].
  { split; [vm_compute; discriminate|].
    intros (st & ext & E & Hst & Hext). exfalso.
    destruct (extension_shape ext Hext) as [_ Hlen].
    apply (f_equal String.length) in E. rewrite length_app in E. simpl in E. lia. }
  unfold is_image_file, suffix. rewrite (name_without_slash n Hn Hdot).
  rewrite bool_decide_eq_true. split.
  - destruct (rfind dot n) as [i|] eqn:Ei.
    2:{ intros H. exfalso. unfold image_extensions in H. simpl in H.
        repeat (apply elem_of_cons in H as [H | H]; [discriminate H|]).
        apply elem_of_nil in H. exact H. }
    destruct ((0 <? i)%nat && (i <? String.length n - 1)%nat) eqn:Eb.
    2:{ intros H. exfalso. unfold image_extensions in H. simpl in H.
        repeat (apply elem_of_cons in H as [H | H]; [discriminate H|]).
        apply elem_of_nil in H. exact H. }
    intros H. exists (take i n), (drop i n).
    split; [symmetry; apply take_drop|]. split; [|exact H].
    apply andb_prop in Eb as [Hi Hl]. apply Nat.ltb_lt in Hi, Hl.
    destruct i as [|i]; [lia|]. destruct n; simpl in *; [lia | discriminate].
  - intros (st & ext & -> & Hst & Hext).
    destruct (extension_shape ext Hext) as [Hr Hlen].
    rewrite rfind_app, Hr, Nat.add_0_r.
    assert (Hpos : (0 < String.length st)%nat) by (destruct st; simpl; [congruence | lia]).
    rewrite length_app.
    replace ((0 <? String.length st)%nat
             && (String.length st <? String.length st + String.length ext - 1)%nat)
      with true.
    + rewrite drop_app_length. exact Hext.
    + symmetry. apply andb_true_intro. split; apply Nat.ltb_lt; lia.
Qed.

Lemma is_image_file_spec_witness :
  ~ In slash (list_ascii_of_string "B.JPG") /\
  (is_image_file "B.JPG" = true <->
   exists st ext, "B.JPG" = st ++ ext /\ st <> "" /\ lower ext ∈ image_extensions).
Proof.
  assert (H : ~ In slash (list_ascii_of_string "B.JPG")).
  { simpl. intros Hin. repeat (destruct Hin as [Hin|Hin]; [discriminate Hin|]). exact Hin. }
  split; [exact H | exact (is_image_file_spec "B.JPG" H)].
Defined.

End RecognisedNames.

Section MakedirsRecursion.
Import MidasDepth.

Lemma length_append (s t : string) :
  String.length (s ++ t) = (String.length s + String.length t)%nat.
Proof.
  induction s as [|c s IH]; unfold String.append; fold String.append; simpl;
    [reflexivity | rewrite IH; reflexivity].
Qed.

Lemma has_prefix_length (a b : string) :
  has_prefix a b -> (String.length a <= String.length b)%nat.
Proof. intros [rest ->]. rewrite length_append. lia. Qed.

(** Going up from [d] gives a shorter name whenever something is left
    to make below it. *)
Lemma split_shorter (d : string) :
  snd (split d) <> "" -> (String.length (fst (split d)) < String.length d)%nat.
Proof.
  unfold split, dirname. cbn [fst snd]. cbv zeta. intros Ht.
  set (i := match rfind slash d with Some j => S j | None => 0%nat end) in *.
  assert (Et : match rfind slash d with Some j => drop (S j) d | None => d end = drop i d).
  { unfold i. destruct (rfind slash d); [reflexivity | destruct d; reflexivity]. }
  rewrite Et in Ht.
  assert (Hl : (String.length (take i d) < String.length d)%nat).
  { rewrite <- (take_drop i d) at 2. rewrite length_append.
    destruct (drop i d); [contradiction | simpl; lia]. }
  destruct (negb _ && negb _); [|exact Hl].
  pose proof (has_prefix_length _ _ (rstrip_prefix slash (take i d))). lia.
Qed.

Lemma makedirs_split_shorter (d head tail : string) :
  makedirs_split d = (head, tail) -> tail <> "" ->
  (String.length head < String.length d)%nat.
Proof.
  unfold makedirs_split. destruct (split d) as [h t] eqn:E.
  destruct (String.eqb_spec t "") as [->|Hne].
  - intros E2 Ht. pose proof (split_shorter h) as Hs. rewrite E2 in Hs.
    specialize (Hs Ht). cbn [fst] in Hs.
    assert (Hh : h = dirname d) by (unfold split in E; congruence).
    pose proof (has_prefix_length _ _ (dirname_prefix d)). subst h. lia.
  - intros [= <- <-] _. pose proof (split_shorter d) as Hs. rewrite E in Hs.
    apply Hs. exact Hne.
Qed.

(** The bound [os_makedirs] gives the recursion is never reached: more
    fuel changes nothing. *)
Lemma makedirs_enough_fuel (fuel : nat) : forall (k : nat) (d : string) (s : proc),
  (String.length d <= fuel)%nat -> (String.length d <= k)%nat ->
  makedirs fuel d s = makedirs k d s.
Proof.
  induction fuel as [|fuel IH]; intros k d s Hf Hk.
  - destruct d; [|simpl in Hf; lia]. destruct k; reflexivity.
  - destruct k as [|k].
    { destruct d; [reflexivity | simpl in Hk; lia]. }
    cbn [makedirs]. destruct (makedirs_split d) as [head tail] eqn:E.
    destruct (String.eqb_spec head "") as [|Hh]; [reflexivity|].
    destruct (String.eqb_spec tail "") as [|Ht]; [reflexivity|].
    cbn [negb andb]. destruct (negb (fs_exists s head)); [|reflexivity].
    pose proof (makedirs_split_shorter d head tail E Ht) as Hlt.
    unfold try_except. rewrite (IH k head s) by lia. reflexivity.
Qed.

Lemma os_makedirs_fuel (fuel : nat) (d : string) (s : proc) :
  (String.length d <= fuel)%nat -> makedirs fuel d s = os_makedirs d s.
Proof. intros H. unfold os_makedirs. apply makedirs_enough_fuel; [exact H | lia]. Qed.

End MakedirsRecursion.

(* ===================================================================== *)
(** * Further properties of the embedding tool *)
(* ===================================================================== *)

Section EmbeddingEffects.
Import OpenclipEmbeddings.
Context {F : Type} `{A : FloatOps F} `{L : ClipLib F}.

(** The fallback branch on an image, with the state it leaves. *)
Lemma fallback_embedding_run (image : rgb_image) (st : proc) :
  fallback_embedding image st =
  match resize_224 image with
  | Raise e => (Raise e, st)
  | Ret small =>
      match int16 (take 8 (md5_hexdigest (tobytes small))) with
      | Raise e => (Raise e, st)
      | Ret seed =>
          if ((0 <=? seed) && (seed <? 2 ^ 32))%Z
          then (Ret (EmbOk (normalized (fst (draws 1024 (mt_seed seed)))) 1024
                           "Fallback 1024D (install open-clip-torch for real OpenCLIP)"),
                {| rng := snd (draws 1024 (mt_seed seed)); stdout := stdout st |})
          else (Raise (Exn "ValueError" "Seed must be between 0 and 2**32 - 1"), st)
      end
  end.
Proof.
  unfold fallback_embedding, bind, call, np_random_seed, np_random_normal, ret.
  generalize 1024%nat. intros n.
  destruct (resize_224 image) as [small|e]; [|reflexivity].
  destruct (int16 _) as [seed|e]; [|reflexivity].
  destruct ((0 <=? seed) && (seed <? 2 ^ 32))%Z; simpl; [|reflexivity].
  destruct (draws n (mt_seed seed)) as [xs st']. reflexivity.
Qed.

Lemma real_embedding_run (image : rgb_image) (st : proc) :
  real_embedding image st =
  match preprocess image with
  | Raise e => (Raise e, st)
  | Ret t =>
      match encode_image t with
      | Raise e => (Raise e, st)
      | Ret v => (Ret (EmbOk (normalized v) (length (normalized v)) "OpenCLIP ViT-H/14"), st)
      end
  end.
Proof.
  unfold real_embedding, bind, call, ret.
  destruct (preprocess image) as [t|e]; [|reflexivity].
  destruct (encode_image t) as [v|e]; reflexivity.
Qed.

Lemma generate_embedding_run (fallback : bool) (s : string) (st : proc) :
  generate_embedding fallback s st =
  match load_image s with
  | Raise e => (Ret (EmbError ("Failed to generate embedding: " ++ exn_str e)), st)
  | Ret image =>
      match (if fallback then fallback_embedding image st else real_embedding image st) with
      | (Ret r, st') => (Ret r, st')
      | (Raise e, st') =>
          (Ret (EmbError ("Failed to generate embedding: " ++ exn_str e)), st')
      end
  end.
Proof.
  unfold generate_embedding, try_except, bind, call, ret.
  destruct (load_image s) as [image|e]; [|reflexivity].
  destruct fallback; reflexivity.
Qed.

(** [generate_embedding] prints nothing. *)
Lemma generate_embedding_stdout (fallback : bool) (s : string) (st : proc) o st' :
  generate_embedding fallback s st = (o, st') -> stdout st' = stdout st.
Proof.
  rewrite generate_embedding_run.
  destruct (load_image s) as [image|e]; [|intros [= _ <-]; reflexivity].
  destruct fallback.
  - rewrite fallback_embedding_run.
    destruct (resize_224 image) as [small|e]; [|intros [= _ <-]; reflexivity].
    destruct (int16 _) as [seed|e]; [|intros [= _ <-]; reflexivity].
    destruct ((0 <=? seed) && (seed <? 2 ^ 32))%Z; intros [= _ <-]; reflexivity.
  - rewrite real_embedding_run.
    destruct (preprocess image) as [t|e]; [|intros [= _ <-]; reflexivity].
    destruct (encode_image t) as [v|e]; intros [= _ <-]; reflexivity.
Qed.

(** X14. In real-model mode [generate_embedding] leaves the process,
    numpy's global generator included, exactly as it was. *)
Theorem real_embedding_keeps_state (s : string) (st : proc) o st' :
  generate_embedding false s st = (o, st') -> st' = st.
Proof.
  rewrite generate_embedding_run.
  destruct (load_image s) as [image|e]; [|intros [= _ <-]; reflexivity].
  rewrite real_embedding_run.
  destruct (preprocess image) as [t|e]; [|intros [= _ <-]; reflexivity].
  destruct (encode_image t) as [v|e]; intros [= _ <-]; reflexivity.
Qed.

(** X15. In fallback mode a successful call reseeds numpy's global
    generator: the vector is the normalised first 1024 draws after a
    seed below 2^32, and the generator is left where those draws end,
    whatever state it was in before. *)
Theorem fallback_embedding_reseeds (s : string) (st st' : proc)
    (embedding : list F) (dimensions : nat) (model : string) :
  generate_embedding true s st = (Ret (EmbOk embedding dimensions model), st') ->
  stdout st' = stdout st /\
  exists seed,
    (0 <= seed < 2 ^ 32)%Z /\
    embedding = normalized (fst (draws 1024 (mt_seed seed))) /\
    rng st' = snd (draws 1024 (mt_seed seed)).
Proof.
  intros E. split; [eapply generate_embedding_stdout; exact E|].
  revert E. rewrite generate_embedding_run.
  destruct (load_image s) as [image|e]; [|discriminate].
  rewrite fallback_embedding_run.
  destruct (resize_224 image) as [small|e]; [|discriminate].
  destruct (int16 _) as [seed|e]; [|discriminate].
  destruct ((0 <=? seed) && (seed <? 2 ^ 32))%Z eqn:Er; [|discriminate].
  pose (d := draws 1024 (mt_seed seed)). fold d.
  intros E. exists seed. split.
  { apply andb_prop in Er as [H1 H2]. apply Z.leb_le in H1. apply Z.ltb_lt in H2. lia. }
  assert (E1 : EmbOk (normalized (fst d)) 1024
                 "Fallback 1024D (install open-clip-torch for real OpenCLIP)"
               = EmbOk embedding dimensions model)
    by (apply (f_equal fst) in E; apply Ret_inj in E; exact E).
  assert (E2 : {| rng := snd d; stdout := stdout st |} = st')
    by (apply (f_equal snd) in E; exact E).
  injection E1 as <- _ _. subst st'. split; reflexivity.
Qed.

(** Eight hexadecimal digits always parse. *)
Lemma int16_acc_hex (s : string) : forall acc,
  forallb (fun c => match hex_digit c with Some _ => true | None => false end)
          (list_ascii_of_string s) = true ->
  exists n, int16_acc acc s = Some n.
Proof.
  induction s as [|c s IH]; simpl; intros acc H; [eexists; reflexivity|].
  apply andb_prop in H as [Hc Hs].
  destruct (hex_digit c) as [d|]; [|discriminate]. apply IH. exact Hs.
Qed.

Lemma forallb_take (P : ascii -> bool) (s : string) : forall n,
  forallb P (list_ascii_of_string s) = true ->
  forallb P (list_ascii_of_string (take n s)) = true.
Proof.
  induction s as [|c s IH]; intros [|n] H; simpl in *; try reflexivity.
  apply andb_prop in H as [Hc Hs]. rewrite Hc, (IH n Hs). reflexivity.
Qed.

Lemma hexdigest_seed (h : string) :
  is_hexdigest h = true ->
  exists seed, int16 (take 8 h) = Ret seed /\
               ((0 <=? seed) && (seed <? 2 ^ 32))%Z = true.
Proof.
  unfold is_hexdigest. intros H. apply andb_prop in H as [Hlen Hhex].
  apply Nat.eqb_eq in Hlen.
  destruct (int16_acc_hex (take 8 h) 0%Z (forallb_take _ h 8 Hhex)) as [n Hn].
  assert (E : int16 (take 8 h) = Ret n).
  { unfold int16. rewrite Hn.
    destruct h as [|c h]; [discriminate Hlen|]. reflexivity. }
  exists n. split; [exact E | eapply seed_in_range; exact E].
Qed.

(** X16. With digests of 32 hexadecimal digits, as [hashlib] prints
    them, the seed always parses and is always accepted: in fallback
    mode every image that loads and can be resized gets an embedding. *)
Theorem fallback_embedding_succeeds (s : string) (st : proc) (image small : rgb_image) :
  (forall b, is_hexdigest (md5_hexdigest b) = true) ->
  load_image s = Ret image -> resize_224 image = Ret small ->
  exists embedding st',
    generate_embedding true s st =
    (Ret (EmbOk embedding 1024 "Fallback 1024D (install open-clip-torch for real OpenCLIP)"),
     st').
Proof.
  intros Hmd5 Hl Hr.
  destruct (hexdigest_seed _ (Hmd5 (tobytes small))) as (seed & Hs & Hrange).
  rewrite generate_embedding_run, Hl, fallback_embedding_run, Hr, Hs, Hrange.
  eexists; eexists; reflexivity.
Qed.

(** X17. [generate_embedding] returns a dictionary on every argument;
    whatever raises while the image is loaded, preprocessed, encoded or
    resized comes back as the error "Failed to generate embedding"
    with the exception's message. *)
Theorem generate_embedding_never_raises (fallback : bool) (s : string) (st : proc) :
  (exists r st', generate_embedding fallback s st = (Ret r, st')) /\
  (forall e, load_image s = Raise e ->
     generate_embedding fallback s st
     = (Ret (EmbError ("Failed to generate embedding: " ++ exn_str e)), st)) /\
  (forall image e, load_image s = Ret image ->
     (fallback = false /\
      (preprocess image = Raise e \/
       exists t, preprocess image = Ret t /\ encode_image t = Raise e)) \/
     (fallback = true /\ resize_224 image = Raise e) ->
     generate_embedding fallback s st
     = (Ret (EmbError ("Failed to generate embedding: " ++ exn_str e)), st)).
Proof.
  split; [|split].
  - rewrite generate_embedding_run.
    destruct (load_image s) as [image|e]; [|eexists; eexists; reflexivity].
    destruct (if fallback then _ else _) as [[r|e] st']; eexists; eexists; reflexivity.
  - intros e Hl. rewrite generate_embedding_run, Hl. reflexivity.
  - intros image e Hl H. rewrite generate_embedding_run, Hl.
    destruct H as [[-> [Hp | (t & Hp & He)]] | [-> Hr]].
    + rewrite real_embedding_run, Hp. reflexivity.
    + rewrite real_embedding_run, Hp, He. reflexivity.
    + rewrite fallback_embedding_run, Hr. reflexivity.
Qed.

(** X18. What the script prints on standard output.  When it dies of
    an exception nothing catches (an import failing outside its guard,
    [torch.device] failing) it prints nothing there.  On every other
    run it ends with a status after printing exactly one JSON document,
    and when the status is not zero the document is an error. *)
Theorem run_prints_one_document (argv : list string) (st : proc) :
  exists o st',
    run argv st = (o, st') /\
    (dies argv -> (exists e, o = Raise e) /\ st' = st) /\
    (~ dies argv ->
       exists status r,
         o = Ret status /\
         stdout st' = (stdout st ++ [r])%list /\
         (status <> 0%Z -> exists msg, r = EmbError msg)).
Proof.
  destruct (run_outcome argv st)
    as [[Hd [e0 E]] | [Hnd (status & r & st' & E & Hout & _ & Herr & _)]];
    rewrite E; eexists; eexists; (split; [reflexivity|]).
  - split; [intros _; split; [eauto | reflexivity] | intros H; contradiction].
  - split; [intros H; contradiction|]. intros _. exists status, r. auto.
Qed.

End EmbeddingEffects.

Section UnitNormBothModes.
Import OpenclipEmbeddings.
Local Open Scope R_scope.
Context `{L : ClipLib R}.

(** C2. Over the reals, with a network that yields 1024 features, with
    neither the network nor the sampler yielding the zero vector, and
    with an MD5 that prints its digest in hexadecimal.  In real-model
    and in fallback mode alike: an embedding that [generate_embedding]
    returns has exactly 1024 elements, reports 1024 dimensions and has
    Euclidean norm 1; and on every input it accepts, that is, an image
    that loads and goes through the resizing (fallback mode) or through
    the preprocessing and the network (real-model mode), it does return
    such an embedding, under the name of the mode. *)
Theorem generate_embedding_unit_norm (fallback : bool) (s : string) (st : proc) :
  model_dimension 1024 -> never_zero ->
  (forall b, is_hexdigest (md5_hexdigest b) = true) ->
  (forall st' embedding dimensions model,
     generate_embedding fallback s st = (Ret (EmbOk embedding dimensions model), st') ->
     length embedding = 1024%nat /\ dimensions = 1024%nat /\ l2_norm embedding = 1) /\
  (forall image,
     load_image s = Ret image ->
     (if fallback then exists small, resize_224 image = Ret small
      else exists t v, preprocess image = Ret t /\ encode_image t = Ret v) ->
     exists embedding st',
       generate_embedding fallback s st =
         (Ret (EmbOk embedding 1024
                 (if fallback
                  then "Fallback 1024D (install open-clip-torch for real OpenCLIP)"
                  else "OpenCLIP ViT-H/14")), st') /\
       length embedding = 1024%nat /\ l2_norm embedding = 1).
Proof.
  intros Hdim Hnz Hmd5.
  assert (Hany : forall st' embedding dimensions model,
            generate_embedding fallback s st = (Ret (EmbOk embedding dimensions model), st') ->
            length embedding = 1024%nat /\ dimensions = 1024%nat /\ l2_norm embedding = 1).
  { intros st' embedding dimensions model E.
    exact (returned_embedding_unit_norm fallback s st st' embedding dimensions model
             Hdim Hnz E). }
  split; [exact Hany|].
  intros image Hl Hstage.
  assert (E : exists embedding st',
            generate_embedding fallback s st =
            (Ret (EmbOk embedding 1024
                    (if fallback
                     then "Fallback 1024D (install open-clip-torch for real OpenCLIP)"
                     else "OpenCLIP ViT-H/14")), st')).
  { rewrite generate_embedding_run, Hl. destruct fallback.
    - destruct Hstage as [small Hr].
      destruct (hexdigest_seed _ (Hmd5 (tobytes small))) as (seed & Hs & Hrange).
      rewrite fallback_embedding_run, Hr, Hs, Hrange. eexists; eexists; reflexivity.
    - destruct Hstage as (t & v & Hp & He).
      rewrite real_embedding_run, Hp, He, normalized_length, (Hdim t v He).
      eexists; eexists; reflexivity. }
  destruct E as (embedding & st' & E). exists embedding, st'.
  split; [exact E|]. destruct (Hany _ _ _ _ E) as (H1 & _ & H3). split; assumption.
Qed.

End UnitNormBothModes.

Section FurtherWitnesses.
Import MidasDepth.

Lemma create_fallback_unchecked_write_witness :
  let L := Demo.lib false in
  let s1 := snd (os_makedirs "out" Demo.locked) in
  files Demo.locked !! "charts/a.png" = Some (FileNode (Encoded "abc")) /\
  os_makedirs (dirname "out/depth.png") Demo.locked = (Ret tt, s1) /\
  write_file "out/depth.png" (GrayPNG [[255; 255; 255]%Z]) s1
    = (Raise (eacces "out/depth.png"), s1) /\
  create_fallback_depth_map (L := L) "charts/a.png" "out/depth.png" Demo.locked =
    (Ret (DepthSuccess "charts/a.png" "out/depth.png" None
            "Fallback Edge-based Depth Simulation"), s1) /\
  files s1 !! "out/depth.png" = None.
Proof.
  assert (Hf : files Demo.locked !! "charts/a.png" = Some (FileNode (Encoded "abc")))
    by (vm_compute; reflexivity).
  assert (Hm : os_makedirs (dirname "out/depth.png") Demo.locked
               = (Ret tt, snd (os_makedirs "out" Demo.locked)))
    by (vm_compute; reflexivity).
  assert (Hw : write_file "out/depth.png" (GrayPNG [[255; 255; 255]%Z])
                 (snd (os_makedirs "out" Demo.locked))
               = (Raise (eacces "out/depth.png"), snd (os_makedirs "out" Demo.locked)))
    by (vm_compute; reflexivity).
  split; [exact Hf|]. split; [exact Hm|]. split; [exact Hw|].
  split; [|vm_compute; reflexivity].
  exact (create_fallback_unchecked_write (L := Demo.lib false)
           "charts/a.png" "out/depth.png" Demo.locked (Encoded "abc")
           [[97; 98; 99]%Z] [[0; 0; 0]%Z] [[255; 255; 255]%Z]
           (GrayPNG [[255; 255; 255]%Z]) _ _ _
           eq_refl Hf eq_refl eq_refl eq_refl Hm eq_refl Hw).
Defined.

(** The offline hub, run: the banner's first line, the error, status 1. *)
Example main_offline :
  main (L := Demo.lib_offline)
       {| input := "chart.png"; output := None; batch := false |} Demo.start
  = (Ret 1%Z,
     {| files := Demo.disk; readonly := ∅;
        stdout := [ Text "Using device: cpu";
                    JsonDepth (DepthError
                      "Script execution failed: Failed to load MiDaS model: <urlopen error [Errno -3] Temporary failure in name resolution>") ] |}).
Proof. vm_compute. reflexivity. Qed.

(** [--batch] on a file: the exception of [iterdir] reaches the
    top-level handler. *)
Example main_batch_on_a_file :
  main (L := Demo.lib true)
       {| input := "chart.png"; output := None; batch := true |} Demo.start
  = (Ret 1%Z,
     {| files := Demo.disk; readonly := ∅;
        stdout := [ Text "Using device: cpu";
                    Text "✓ MiDaS DPT-Hybrid model loaded successfully";
                    JsonDepth (DepthError
                      "Script execution failed: [Errno 20] Not a directory: 'chart.png'") ] |}).
Proof. vm_compute. reflexivity. Qed.

(** The script from its first line: without [numpy] it dies before
    [main] and prints nothing, even in what would be fallback mode; a
    command line without [--input] ends it with status 2; [--batch] on
    a missing directory whose name is too long ends it with status 1. *)
Example script_runs :
  let numpy_missing := Raise (Exn "ModuleNotFoundError" "No module named 'numpy'") in
  let a := {| input := "chart.png"; output := None; batch := false |} in
  script (L := Demo.lib_with numpy_missing None false) (Parsed a) Demo.start
    = (Raise (Exn "ModuleNotFoundError" "No module named 'numpy'"), Demo.start) /\
  script (L := Demo.lib true) Rejected Demo.start = (Ret 2%Z, Demo.start) /\
  script (L := Demo.lib true) (HelpRequested "usage: midas_depth.py [-h] --input INPUT")
         Demo.start
    = (Ret 0%Z, printed Demo.start (Text "usage: midas_depth.py [-h] --input INPUT")) /\
  exit_status
    (fst (script (L := Demo.lib true)
            (Parsed {| input := Demo.long_name; output := Some "out"; batch := true |})
            Demo.start)) = 1%Z /\
  exit_status
    (fst (script (L := Demo.lib true)
            (Parsed {| input := "nowhere"; output := Some "out"; batch := true |})
            Demo.start)) = 0%Z.
Proof. cbv zeta. repeat split; vm_compute; reflexivity. Qed.

End FurtherWitnesses.

Section FurtherEmbeddingWitnesses.
Import OpenclipEmbeddings.

Lemma real_embedding_keeps_state_witness :
  let L := Demo.clip true true in
  let st := Demo.clip_start true true 5 in
  let run := generate_embedding (L := L) false "/data/chart.png" st in
  run = (fst run, snd run) /\ snd run = st.
Proof.
  assert (E : generate_embedding (L := Demo.clip true true) false "/data/chart.png"
                (Demo.clip_start true true 5)
              = (fst (generate_embedding (L := Demo.clip true true) false "/data/chart.png"
                        (Demo.clip_start true true 5)),
                 snd (generate_embedding (L := Demo.clip true true) false "/data/chart.png"
                        (Demo.clip_start true true 5))))
    by apply surjective_pairing.
  split; [exact E|].
  exact (real_embedding_keeps_state (L := Demo.clip true true) _ _ _ _ E).
Defined.

Lemma fallback_embedding_reseeds_witness :
  let L := Demo.clip false true in
  let st := Demo.clip_start false true 5 in
  let run := generate_embedding (L := L) true "/data/chart.png" st in
  exists embedding,
    run = (Ret (EmbOk embedding 1024
                  "Fallback 1024D (install open-clip-torch for real OpenCLIP)"), snd run) /\
    stdout (snd run) = stdout st /\
    exists seed,
      (0 <= seed < 2 ^ 32)%Z /\
      embedding = normalized (fst (draws (L := L) 1024 (mt_seed seed))) /\
      rng (snd run) = snd (draws (L := L) 1024 (mt_seed seed)).
Proof.
  eexists.
  assert (E : generate_embedding (L := Demo.clip false true) true "/data/chart.png"
                (Demo.clip_start false true 5)
              = (Ret (EmbOk _ 1024
                        "Fallback 1024D (install open-clip-torch for real OpenCLIP)"),
                 snd (generate_embedding (L := Demo.clip false true) true "/data/chart.png"
                        (Demo.clip_start false true 5))))
    by reflexivity.
  split; [exact E|].
  exact (fallback_embedding_reseeds (L := Demo.clip false true) _ _ _ _ _ _ E).
Defined.

Lemma fallback_embedding_succeeds_witness :
  let L := Demo.clip false true in
  (forall b, is_hexdigest (md5_hexdigest (ClipLib := L) b) = true) /\
  load_image (L := L) "/data/chart.png" = Ret "iVBORw0KGgoAAAAN" /\
  resize_224 (ClipLib := L) "iVBORw0KGgoAAAAN" = Ret "iVBORw0KGgoAAAAN" /\
  exists embedding st',
    generate_embedding (L := L) true "/data/chart.png" (Demo.clip_start false true 5) =
    (Ret (EmbOk embedding 1024 "Fallback 1024D (install open-clip-torch for real OpenCLIP)"),
     st').
Proof.
  assert (H : forall b, is_hexdigest (md5_hexdigest (ClipLib := Demo.clip false true) b) = true)
    by (intros b; reflexivity).
  split; [exact H|]. split; [reflexivity|]. split; [reflexivity|].
  exact (fallback_embedding_succeeds (L := Demo.clip false true) "/data/chart.png"
           (Demo.clip_start false true 5) "iVBORw0KGgoAAAAN" "iVBORw0KGgoAAAAN"
           H eq_refl eq_refl).
Defined.

Lemma demo_hexdigest (openclip loads : bool) :
  forall b, is_hexdigest (md5_hexdigest (ClipLib := Demo.clip openclip loads) b) = true.
Proof. intros b. reflexivity. Qed.

Lemma generate_embedding_unit_norm_witness :
  (let L := Demo.clip false true in
   let st := Demo.clip_start false true 5 in
   model_dimension (L := L) 1024 /\ never_zero (L := L) /\
   (forall b, is_hexdigest (md5_hexdigest (ClipLib := L) b) = true) /\
   (forall st' embedding dimensions model,
      generate_embedding (L := L) true "/data/chart.png" st
        = (Ret (EmbOk embedding dimensions model), st') ->
      length embedding = 1024%nat /\ dimensions = 1024%nat /\ l2_norm embedding = 1%R) /\
   (forall image,
      load_image (L := L) "/data/chart.png" = Ret image ->
      (exists small, resize_224 (ClipLib := L) image = Ret small) ->
      exists embedding st',
        generate_embedding (L := L) true "/data/chart.png" st =
          (Ret (EmbOk embedding 1024
                  "Fallback 1024D (install open-clip-torch for real OpenCLIP)"), st') /\
        length embedding = 1024%nat /\ l2_norm embedding = 1%R)) /\
  (let L := Demo.clip true true in
   let st := Demo.clip_start true true 5 in
   model_dimension (L := L) 1024 /\ never_zero (L := L) /\
   (forall b, is_hexdigest (md5_hexdigest (ClipLib := L) b) = true) /\
   (forall st' embedding dimensions model,
      generate_embedding (L := L) false "/data/chart.png" st
        = (Ret (EmbOk embedding dimensions model), st') ->
      length embedding = 1024%nat /\ dimensions = 1024%nat /\ l2_norm embedding = 1%R) /\
   (forall image,
      load_image (L := L) "/data/chart.png" = Ret image ->
      (exists t v, preprocess (ClipLib := L) image = Ret t /\
                   encode_image (ClipLib := L) t = Ret v) ->
      exists embedding st',
        generate_embedding (L := L) false "/data/chart.png" st =
          (Ret (EmbOk embedding 1024 "OpenCLIP ViT-H/14"), st') /\
        length embedding = 1024%nat /\ l2_norm embedding = 1%R)).
Proof.
  split; cbv zeta.
  - split; [apply demo_model_dimension|]. split; [apply demo_never_zero|].
    split; [apply demo_hexdigest|].
    exact (generate_embedding_unit_norm (L := Demo.clip false true) true "/data/chart.png"
             (Demo.clip_start false true 5)
             (demo_model_dimension false true) (demo_never_zero false true)
             (demo_hexdigest false true)).
  - split; [apply demo_model_dimension|]. split; [apply demo_never_zero|].
    split; [apply demo_hexdigest|].
    exact (generate_embedding_unit_norm (L := Demo.clip true true) false "/data/chart.png"
             (Demo.clip_start true true 5)
             (demo_model_dimension true true) (demo_never_zero true true)
             (demo_hexdigest true true)).
Defined.

(** The two runs of the witness.  Neither raw vector has norm 1: the
    sampler's has the sum of squares 1024, the network's 25. *)
Lemma sum_squares_repeat_one (n : nat) : sum_squares (repeat 1%R n) = INR n.
Proof.
  induction n as [|n IH]; [reflexivity|].
  rewrite S_INR. cbn [repeat sum_squares fold_right].
  fold (sum_squares (repeat 1%R n)). rewrite IH. ring.
Qed.

Example generate_embedding_demo_runs :
  (exists st',
     generate_embedding (L := Demo.clip false true) true "/data/chart.png"
       (Demo.clip_start false true 5)
     = (Ret (EmbOk (normalized (repeat 1%R 1024)) 1024
               "Fallback 1024D (install open-clip-torch for real OpenCLIP)"), st')) /\
  sum_squares (repeat 1%R 1024) = INR 1024 /\
  generate_embedding (L := Demo.clip true true) false "/data/chart.png"
    (Demo.clip_start true true 5)
  = (Ret (EmbOk (normalized (3 :: 4 :: repeat 0 1022)%R) 1024 "OpenCLIP ViT-H/14"),
     Demo.clip_start true true 5) /\
  sum_squares (3 :: 4 :: repeat 0 1022)%R = 25%R.
Proof.
  split; [|split; [apply sum_squares_repeat_one | split]].
  - rewrite generate_embedding_run. change (load_image "/data/chart.png")
      with (@Ret (rgb_image (ClipLib := Demo.clip false true)) "iVBORw0KGgoAAAAN").
    cbv beta iota. rewrite fallback_embedding_run.
    cbn [resize_224 Demo.clip Demo.clip_with].
    destruct (hexdigest_seed _
                (demo_hexdigest false true
                   (tobytes (ClipLib := Demo.clip false true) "iVBORw0KGgoAAAAN")))
      as (seed & Hs & Hr).
    rewrite Hs, Hr. rewrite demo_draws.
    eexists. reflexivity.
  - rewrite generate_embedding_run. change (load_image "/data/chart.png")
      with (@Ret (rgb_image (ClipLib := Demo.clip true true)) "iVBORw0KGgoAAAAN").
    cbv beta iota. rewrite real_embedding_run. cbn [preprocess encode_image Demo.clip Demo.clip_with].
    rewrite normalized_length. cbn [length]. rewrite repeat_length. reflexivity.
  - cbn [sum_squares fold_right]. fold (sum_squares (repeat 0%R 1022)).
    rewrite sum_squares_repeat_zero. lra.
Qed.

(** The script without [numpy], and with a [torch] whose device cannot
    be built: the exception reaches the top level, the status is 1 and
    nothing is printed. *)
Example run_dies :
  let numpy_missing := Raise (Exn "ModuleNotFoundError" "No module named 'numpy'") in
  let no_device := Raise (Exn "RuntimeError" "CUDA driver initialization failed") in
  let argv := ["openclip_embeddings.py"; "/data/chart.png"] in
  run (L := Demo.clip_with numpy_missing (Ret tt) false true) argv
      (@OpenclipEmbeddings.Build_proc R (Demo.clip_with numpy_missing (Ret tt) false true)
         0%Z [])
    = (Raise (Exn "ModuleNotFoundError" "No module named 'numpy'"),
       @OpenclipEmbeddings.Build_proc R (Demo.clip_with numpy_missing (Ret tt) false true)
         0%Z []) /\
  run (L := Demo.clip_with (Ret tt) no_device true true) argv
      (@OpenclipEmbeddings.Build_proc R (Demo.clip_with (Ret tt) no_device true true)
         0%Z [])
    = (Raise (Exn "RuntimeError" "CUDA driver initialization failed"),
       @OpenclipEmbeddings.Build_proc R (Demo.clip_with (Ret tt) no_device true true)
         0%Z []).
Proof. cbv zeta. split; reflexivity. Qed.

End FurtherEmbeddingWitnesses.
